(** * Vault event source plugin (vault_events.py): model and properties

    A shallow embedding of the plugin's four components: the URL builder
    [_build_event_url], the per-pattern connection supervisor
    [_stream_single_pattern], the fan-out coordinator
    [_stream_multiple_patterns] and the entry point [main].

    Conventions.
    - A Python [str] is represented by the byte string of its UTF-8
      encoding (Rocq [string]); the ASCII-only operations the plugin applies
      ([startswith], [replace], concatenation) commute with that encoding.
    - A duration in seconds (a Python [float]) is an exact rational [Q];
      the only arithmetic the plugin performs on it is doubling and [min].
    - A coroutine is a state machine whose states are its suspension
      points; the event loop feeds it one wake-up at a time. *)

From Stdlib Require Import QArith Qminmax Lqa Ascii String DecimalString.
From stdpp Require Import gmap strings list fin_maps.

Open Scope string_scope.

(** ** Python string primitives *)

Module PyStr.

(** [s.startswith(p)] *)
Definition startswith (s p : string) : bool := String.prefix p s.

(** Scan of [str.replace] for a non-empty pattern: [skip] counts the
    characters of the current match that are still to be dropped. *)
Fixpoint replace_from (old new : string) (skip : nat) (s : string) : string :=
  match s with
  | EmptyString => EmptyString
  | String c rest =>
      match skip with
      | S k => replace_from old new k rest
      | O =>
          if String.prefix old s
          then new +:+ replace_from old new (String.length old - 1) rest
          else String c (replace_from old new 0 rest)
      end
  end.

(** With an empty pattern Python inserts [new] around every character. *)
Fixpoint intersperse (new s : string) : string :=
  match s with
  | EmptyString => new
  | String c rest => new +:+ String c (intersperse new rest)
  end.

(** [s.replace(old, new)]: every non-overlapping occurrence, left to right. *)
Definition replace (s old new : string) : string :=
  match old with
  | EmptyString => intersperse new s
  | String _ _ => replace_from old new 0 s
  end.

(** Number of positions of [s] at which [p] occurs. *)
Fixpoint count_occ (p s : string) : nat :=
  match s with
  | EmptyString => 0
  | String _ rest => (if String.prefix p s then 1 else 0) + count_occ p rest
  end.

End PyStr.

(** ** urllib.parse: percent-encoding *)

Module Urllib.

Definition in_range (lo hi c : ascii) : bool :=
  (N_of_ascii lo <=? N_of_ascii c)%N && (N_of_ascii c <=? N_of_ascii hi)%N.

Fixpoint mem_char (c : ascii) (s : string) : bool :=
  match s with
  | EmptyString => false
  | String d rest => Ascii.eqb c d || mem_char c rest
  end.

(** [_ALWAYS_SAFE]: ASCII letters, digits and [_.-~]. *)
Definition always_safe (c : ascii) : bool :=
  in_range "A" "Z" c || in_range "a" "z" c || in_range "0" "9" c
  || mem_char c "_.-~".

Definition hex_digit (n : N) : ascii :=
  match String.get (N.to_nat n) "0123456789ABCDEF" with
  | Some d => d
  | None => "0"%char
  end.

(** ['%{:02X}'.format(byte)] *)
Definition percent (c : ascii) : string :=
  let n := N_of_ascii c in
  String "%" (String (hex_digit (n / 16)) (String (hex_digit (n mod 16)) EmptyString)).

Definition quote_byte (safe : string) (c : ascii) : string :=
  if always_safe c || mem_char c safe then String c EmptyString else percent c.

Fixpoint quote_from_bytes (safe s : string) : string :=
  match s with
  | EmptyString => EmptyString
  | String c rest => quote_byte safe c +:+ quote_from_bytes safe rest
  end.

(** [quote(string)] with its default [safe='/']. *)
Definition quote (s : string) : string := quote_from_bytes "/" s.

(** Value of a hexadecimal digit, either case (the keys of [_hextobyte]). *)
Definition hex_val (c : ascii) : option N :=
  if in_range "0" "9" c then Some (N_of_ascii c - 48)%N
  else if in_range "A" "F" c then Some (N_of_ascii c - 55)%N
  else if in_range "a" "f" c then Some (N_of_ascii c - 87)%N
  else None.

(** [unquote_to_bytes]: a [%] followed by two hexadecimal digits is one
    byte; any other [%] stays as it is.  On the UTF-8 representation of
    text this is [unquote], whose final decoding step is the identity on
    well-formed input. *)
Fixpoint unquote (s : string) : string :=
  match s with
  | EmptyString => EmptyString
  | String c tl =>
      if Ascii.eqb c "%" then
        match tl with
        | String h (String l rest) =>
            match hex_val h, hex_val l with
            | Some a, Some b => String (ascii_of_N (16 * a + b)) (unquote rest)
            | _, _ => String c (unquote tl)
            end
        | _ => String c (unquote tl)
        end
      else String c (unquote tl)
  end.

End Urllib.

(** ** URL builder *)

(** Truth value of an [Optional[str]]: [None] and [''] are false. *)
Definition truthy_opt_str (o : option string) : bool :=
  match o with
  | Some (String _ _) => true
  | _ => false
  end.

Definition ws_scheme (vault_addr : string) : string :=
  if PyStr.startswith vault_addr "https://"
  then PyStr.replace vault_addr "https://" "wss://"
  else PyStr.replace vault_addr "http://" "ws://".

Definition _build_event_url (vault_addr event_pattern : string)
    (filter_expression : option string) : string :=
  let ws_url := ws_scheme vault_addr in
  let event_url :=
    ws_url +:+ "/v1/sys/events/subscribe/" +:+ event_pattern +:+ "?json=true" in
  match filter_expression with
  | Some f =>
      if truthy_opt_str filter_expression
      then event_url +:+ "&filter=" +:+ Urllib.quote f
      else event_url
  | None => event_url
  end.

(** The double-quote character, kept out of string literals. *)
Definition dq : string := String "034"%char EmptyString.

(** ** Python values and exceptions *)

(** The values a decoded JSON text can hold, and the records the plugin
    builds.  A [dict] keeps its items in insertion order; a [float] is
    kept as the literal that denotes it. *)
#[local] Set Warnings "-register-all".
Inductive PyVal : Type :=
| PyNone
| PyBool (b : bool)
| PyInt (z : Z)
| PyFloat (literal : string)
| PyStr (s : string)
| PyList (items : list PyVal)
| PyDict (items : list (string * PyVal)).

(** [d[k] = v] on an insertion-ordered dict. *)
Fixpoint dict_set (k : string) (v : PyVal) (d : list (string * PyVal))
    : list (string * PyVal) :=
  match d with
  | [] => [(k, v)]
  | (k', v') :: rest =>
      if String.eqb k k' then (k, v) :: rest else (k', v') :: dict_set k v rest
  end.

(** The exception classes that the plugin names or that reach its handlers. *)
Inductive ExnClass : Type :=
| CancelledError
| JSONDecodeError
| UnicodeDecodeError
| ValueError
| TypeError
| AttributeError
| ConnectionClosed
| WebSocketException
| OSError
| SSLError
| RuntimeError
| RecursionError.

Definition ExnClass_eqb (a b : ExnClass) : bool :=
  match a, b with
  | CancelledError, CancelledError | JSONDecodeError, JSONDecodeError
  | UnicodeDecodeError, UnicodeDecodeError | ValueError, ValueError
  | TypeError, TypeError | AttributeError, AttributeError
  | ConnectionClosed, ConnectionClosed | WebSocketException, WebSocketException
  | OSError, OSError | SSLError, SSLError | RuntimeError, RuntimeError
  | RecursionError, RecursionError => true
  | _, _ => false
  end.

(** Direct base class inside this set ([None]: the base is outside it). *)
Definition base_class (c : ExnClass) : option ExnClass :=
  match c with
  | JSONDecodeError | UnicodeDecodeError => Some ValueError
  | ConnectionClosed => Some WebSocketException
  | SSLError => Some OSError
  | RecursionError => Some RuntimeError
  | _ => None
  end.

(** [issubclass(c, b)] *)
Definition issubclass (c b : ExnClass) : bool :=
  ExnClass_eqb c b
  || match base_class c with
     | Some p => ExnClass_eqb p b
     | None => false
     end.

Record Exn : Type := mkExn { exn_class : ExnClass; exn_str : string }.

(** [except (C1, ..., Cn)] matches [e]. *)
Definition caught_by (e : Exn) (classes : list ExnClass) : bool :=
  existsb (issubclass (exn_class e)) classes.

(** Result of evaluating an expression that may raise. *)
Inductive Outcome (A : Type) : Type :=
| Ok (a : A)
| Raise (e : Exn).
Arguments Ok {A} a.
Arguments Raise {A} e.

(** ** json.loads on text *)

Module Json.

Definition dquote : ascii := "034"%char.
Definition backslash : ascii := "\"%char.

Definition is_ws (c : ascii) : bool :=
  Ascii.eqb c " " || Ascii.eqb c "009" || Ascii.eqb c "010" || Ascii.eqb c "013".

Fixpoint skip_ws (s : string) : string :=
  match s with
  | String c rest => if is_ws c then skip_ws rest else s
  | EmptyString => s
  end.

Definition is_digit (c : ascii) : bool := Urllib.in_range "0" "9" c.

(** Longest run of decimal digits at the front of [s], and what follows. *)
Fixpoint span_digits (s : string) : string * string :=
  match s with
  | String c rest =>
      if is_digit c
      then let (ds, r) := span_digits rest in (String c ds, r)
      else (EmptyString, s)
  | EmptyString => (EmptyString, s)
  end.

Fixpoint digits_value (acc : Z) (ds : string) : Z :=
  match ds with
  | String c rest => digits_value (10 * acc + (Z.of_N (N_of_ascii c) - 48)) rest
  | EmptyString => acc
  end.

Fixpoint drop (n : nat) (s : string) : string :=
  match n, s with
  | S k, String _ rest => drop k rest
  | _, _ => s
  end.

(** The three exceptions of the decoder.  The message of the
    [JSONDecodeError], which the plugin only logs, is left empty. *)
Definition decode_error : Exn := mkExn JSONDecodeError EmptyString.

Definition recursion_error (container : string) : Exn :=
  mkExn RecursionError
    ("maximum recursion depth exceeded while decoding a JSON " +:+ container
     +:+ " from a unicode string").

(** Decimal numeral of a natural number. *)
Definition decimal (n : nat) : string := NilEmpty.string_of_uint (Nat.to_uint n).

(** [int(literal)] refuses a literal of more than [max_str_digits] digits. *)
Definition digits_error (max_str_digits digits : nat) : Exn :=
  mkExn ValueError
    ("Exceeds the limit (" +:+ decimal max_str_digits
     +:+ " digits) for integer string conversion: value has " +:+ decimal digits
     +:+ " digits; use sys.set_int_max_str_digits() to increase the limit").

(** [NUMBER_RE]: an optional minus sign, then either 0 or a digit run
    without leading zero; an optional fraction (a dot and digits); an
    optional exponent (e or E, an optional sign, digits).  [None]: no
    number starts here.  An integer literal is converted by [int], which
    raises [ValueError] beyond [max_str_digits] digits. *)
Definition scan_number (max_str_digits : nat) (s : string)
    : option (Outcome (PyVal * string)) :=
  let (sign, s1) :=
    match s with
    | String "-" r => ("-", r)
    | _ => (EmptyString, s)
    end in
  let integer :=
    match s1 with
    | String c r =>
        if Ascii.eqb c "0" then Some ("0", r)
        else if Urllib.in_range "1" "9" c
             then let (ds, r') := span_digits r in Some (String c ds, r')
             else None
    | EmptyString => None
    end in
  match integer with
  | None => None
  | Some (int_part, s2) =>
      let (frac, s3) :=
        match s2 with
        | String "." r =>
            match span_digits r with
            | (String d ds, r') => ("." +:+ String d ds, r')
            | (EmptyString, _) => (EmptyString, s2)
            end
        | _ => (EmptyString, s2)
        end in
      let (exp, s4) :=
        match s3 with
        | String e r =>
            if Ascii.eqb e "e" || Ascii.eqb e "E" then
              let (esign, r1) :=
                match r with
                | String g r0 =>
                    if Ascii.eqb g "-" || Ascii.eqb g "+"
                    then (String g EmptyString, r0) else (EmptyString, r)
                | EmptyString => (EmptyString, r)
                end in
              match span_digits r1 with
              | (String d ds, r') => (String e esign +:+ String d ds, r')
              | (EmptyString, _) => (EmptyString, s3)
              end
            else (EmptyString, s3)
        | EmptyString => (EmptyString, s3)
        end in
      match frac, exp with
      | EmptyString, EmptyString =>
          if (max_str_digits <? String.length int_part)%nat
          then Some (Raise (digits_error max_str_digits (String.length int_part)))
          else
            let n := digits_value 0 int_part in
            Some (Ok (PyInt (if String.eqb sign "-" then - n else n), s4))
      | _, _ => Some (Ok (PyFloat (sign +:+ int_part +:+ frac +:+ exp), s4))
      end
  end.

(** [BACKSLASH]: the single-character escapes. *)
Definition escape (c : ascii) : option ascii :=
  if Ascii.eqb c dquote then Some dquote
  else if Ascii.eqb c backslash then Some backslash
  else if Ascii.eqb c "/" then Some "/"%char
  else if Ascii.eqb c "b" then Some "008"%char
  else if Ascii.eqb c "f" then Some "012"%char
  else if Ascii.eqb c "n" then Some "010"%char
  else if Ascii.eqb c "r" then Some "013"%char
  else if Ascii.eqb c "t" then Some "009"%char
  else None.

Definition hex4 (a b c d : ascii) : option N :=
  match Urllib.hex_val a, Urllib.hex_val b, Urllib.hex_val c, Urllib.hex_val d with
  | Some x, Some y, Some z, Some w => Some (((x * 16 + y) * 16 + z) * 16 + w)%N
  | _, _, _, _ => None
  end.

(** UTF-8 encoding of one code point (surrogates included, three bytes). *)
Definition utf8 (u : N) : string :=
  let b (n : N) := ascii_of_N n in
  (if u <? 128 then String (b u) EmptyString
   else if u <? 2048 then
     String (b (192 + u / 64)) (String (b (128 + u mod 64)) EmptyString)
   else if u <? 65536 then
     String (b (224 + u / 4096))
       (String (b (128 + (u / 64) mod 64)) (String (b (128 + u mod 64)) EmptyString))
   else
     String (b (240 + u / 262144))
       (String (b (128 + (u / 4096) mod 64))
          (String (b (128 + (u / 64) mod 64)) (String (b (128 + u mod 64)) EmptyString))))%N.

Definition is_high (u : N) : bool := ((55296 <=? u) && (u <=? 56319))%N.
Definition is_low (u : N) : bool := ((56320 <=? u) && (u <=? 57343))%N.

(** [py_scanstring] in strict mode, entered after the opening quote:
    the decoded text and what follows the closing quote. *)
Fixpoint scanstring (s : string) (acc : string) : option (string * string) :=
  match s with
  | EmptyString => None
  | String c r =>
      if Ascii.eqb c dquote then Some (acc, r)
      else if Ascii.eqb c backslash then
        match r with
        | EmptyString => None
        | String e r1 =>
            if Ascii.eqb e "u" then
              match r1 with
              | String h1 (String h2 (String h3 (String h4 r2))) =>
                  match hex4 h1 h2 h3 h4 with
                  | None => None
                  | Some uni =>
                      match r2 with
                      | String b (String u (String l1 (String l2 (String l3 (String l4 r3))))) =>
                          match hex4 l1 l2 l3 l4 with
                          | Some uni2 =>
                              if is_high uni && Ascii.eqb b backslash
                                 && Ascii.eqb u "u" && is_low uni2
                              then scanstring r3
                                     (acc +:+ utf8 (65536 + (uni - 55296) * 1024
                                                    + (uni2 - 56320)))
                              else scanstring r2 (acc +:+ utf8 uni)
                          | None => scanstring r2 (acc +:+ utf8 uni)
                          end
                      | _ => scanstring r2 (acc +:+ utf8 uni)
                      end
                  end
              | _ => None
              end
            else
              match escape e with
              | Some ch => scanstring r1 (acc +:+ String ch EmptyString)
              | None => None
              end
        end
      else if (N_of_ascii c <? 32)%N then None
      else scanstring r (acc +:+ String c EmptyString)
  end.

(** [scan_once], [JSONArray] and [JSONObject]: recursive descent.
    [depth] is the number of containers that are open, and entering one
    more raises [RecursionError] when [recursion_limit] of them are open
    already; [fuel] bounds the calls of this model and does not run out
    on the value given by [loads_limited]. *)
Fixpoint scan_once (fuel recursion_limit max_str_digits depth : nat) (s : string)
    : Outcome (PyVal * string) :=
  match fuel with
  | O => Raise decode_error
  | S n =>
      match s with
      | EmptyString => Raise decode_error
      | String c r =>
          if Ascii.eqb c dquote then
            match scanstring r EmptyString with
            | Some (str, r') => Ok (PyStr str, r')
            | None => Raise decode_error
            end
          else if Ascii.eqb c "{" then
            if (recursion_limit <=? depth)%nat then Raise (recursion_error "object")
            else
              match skip_ws r with
              | String c1 r1 =>
                  if Ascii.eqb c1 "}" then Ok (PyDict [], r1)
                  else if Ascii.eqb c1 dquote
                  then object_items n recursion_limit max_str_digits (S depth) r1 []
                  else Raise decode_error
              | EmptyString => Raise decode_error
              end
          else if Ascii.eqb c "[" then
            if (recursion_limit <=? depth)%nat then Raise (recursion_error "array")
            else
              match skip_ws r with
              | String c1 r1 =>
                  if Ascii.eqb c1 "]" then Ok (PyList [], r1)
                  else array_items n recursion_limit max_str_digits (S depth)
                         (String c1 r1) []
              | EmptyString => Raise decode_error
              end
          else if String.prefix "null" s then Ok (PyNone, drop 4 s)
          else if String.prefix "true" s then Ok (PyBool true, drop 4 s)
          else if String.prefix "false" s then Ok (PyBool false, drop 5 s)
          else
            match scan_number max_str_digits s with
            | Some res => res
            | None =>
                if String.prefix "NaN" s then Ok (PyFloat "NaN", drop 3 s)
                else if String.prefix "Infinity" s
                     then Ok (PyFloat "Infinity", drop 8 s)
                else if String.prefix "-Infinity" s
                     then Ok (PyFloat "-Infinity", drop 9 s)
                else Raise decode_error
            end
      end
  end
with array_items (fuel recursion_limit max_str_digits depth : nat) (s : string)
    (acc : list PyVal) : Outcome (PyVal * string) :=
  match fuel with
  | O => Raise decode_error
  | S n =>
      match scan_once n recursion_limit max_str_digits depth s with
      | Raise e => Raise e
      | Ok (v, r) =>
          match skip_ws r with
          | String c r1 =>
              if Ascii.eqb c "]" then Ok (PyList (acc ++ [v]), r1)
              else if Ascii.eqb c ","
              then array_items n recursion_limit max_str_digits depth (skip_ws r1)
                     (acc ++ [v])
              else Raise decode_error
          | EmptyString => Raise decode_error
          end
      end
  end
with object_items (fuel recursion_limit max_str_digits depth : nat) (s : string)
    (acc : list (string * PyVal)) : Outcome (PyVal * string) :=
  match fuel with
  | O => Raise decode_error
  | S n =>
      match scanstring s EmptyString with
      | None => Raise decode_error
      | Some (key, r) =>
          match skip_ws r with
          | String c r1 =>
              if Ascii.eqb c ":" then
                match scan_once n recursion_limit max_str_digits depth (skip_ws r1) with
                | Raise e => Raise e
                | Ok (v, r2) =>
                    match skip_ws r2 with
                    | String c2 r3 =>
                        if Ascii.eqb c2 "}" then Ok (PyDict (dict_set key v acc), r3)
                        else if Ascii.eqb c2 "," then
                          match skip_ws r3 with
                          | String c3 r4 =>
                              if Ascii.eqb c3 dquote
                              then object_items n recursion_limit max_str_digits depth
                                     r4 (dict_set key v acc)
                              else Raise decode_error
                          | EmptyString => Raise decode_error
                          end
                        else Raise decode_error
                    | EmptyString => Raise decode_error
                    end
                end
              else Raise decode_error
          | EmptyString => Raise decode_error
          end
      end
  end.

(** [json.loads(s)] for a [str], in an interpreter that has room for
    [recursion_limit] nested containers and converts integer literals of
    at most [max_str_digits] digits: one value, surrounded by optional
    whitespace and nothing else. *)
Definition loads_limited (recursion_limit max_str_digits : nat) (s : string)
    : Outcome PyVal :=
  match scan_once (2 * String.length s + 2) recursion_limit max_str_digits 0
          (skip_ws s) with
  | Ok (v, rest) =>
      match skip_ws rest with
      | EmptyString => Ok v
      | String _ _ => Raise decode_error
      end
  | Raise e => Raise e
  end.

(** The defaults of the interpreter: [sys.getrecursionlimit()] and
    [sys.get_int_max_str_digits()].  The room really left for nesting is
    smaller by the depth of the call stack at the call. *)
Definition recursion_limit : nat := 1000.
Definition max_str_digits : nat := 4300.

(** [json.loads(s)] with these defaults. *)
Definition loads (s : string) : Outcome PyVal :=
  loads_limited recursion_limit max_str_digits s.

End Json.

(** ** Connection supervisor: [_stream_single_pattern] *)

(** The output queue is an object shared by reference. *)
Definition QueueRef : Type := nat.

Record SupervisorArgs : Type := mkSupervisorArgs {
  sa_queue : QueueRef;
  sa_vault_addr : string;
  sa_event_pattern : string;
  sa_headers : gmap string string;
  sa_ping_interval : Z;
  sa_verify_ssl : bool;
  sa_backoff_initial : Q;
  sa_backoff_max : Q;
  sa_filter_expression : option string
}.

(** [ssl_ctx]: absent, the default verifying context, or one with
    [check_hostname = False] and [verify_mode = CERT_NONE]. *)
Inductive SslCtx : Type := NoSsl | SslDefault | SslUnverified.

(** What a coroutine asks of the outside world. *)
Inductive Effect : Type :=
| Connect (url : string) (additional_headers : gmap string string)
          (ping_interval : Z) (ssl : SslCtx)
| QueuePut (q : QueueRef) (event : PyVal)
| Sleep (delay : Q).

(** How the event loop resumes a suspended coroutine. *)
Inductive Wake : Type :=
| Resolved                 (* the awaited operation completed *)
| Message (msg : string)   (* the connection iterator yielded a text frame *)
| Exhausted                (* the connection iterator stopped *)
| Thrown (e : Exn).        (* the awaited operation raised [e] *)

(** Suspension points of the coroutine, with its local [backoff]. *)
Inductive SupState : Type :=
| Created                      (* not started yet *)
| Connecting (backoff : Q)     (* awaiting [connect(...)] *)
| Streaming (backoff : Q)      (* awaiting the next frame of [async for] *)
| BackoffWait (backoff : Q)    (* awaiting [asyncio.sleep(backoff)] *)
| Finished (e : Exn).          (* the coroutine raised [e] *)

(** Python's [min(a, b)]: [b] when [b < a], else [a]. *)
Definition py_min (a b : Q) : Q :=
  match Qcompare b a with
  | Lt => b
  | _ => a
  end.

Definition cancelled : Exn := mkExn CancelledError "".

Section Supervisor.

(** The JSON decoder in use ([json.loads]). *)
Variable loads : string -> Outcome PyVal.

Variable args : SupervisorArgs.

Definition supervisor_url : string :=
  _build_event_url (sa_vault_addr args) (sa_event_pattern args)
    (sa_filter_expression args).

Definition ssl_ctx : SslCtx :=
  if PyStr.startswith supervisor_url "wss://"
  then if negb (sa_verify_ssl args) then SslUnverified else SslDefault
  else NoSsl.

Definition connect_call : Effect :=
  Connect supervisor_url (sa_headers args) (sa_ping_interval args) ssl_ctx.

(** Body of the inner [try]: decode, then evaluate the arguments of
    [log.debug], among them [event.get("event_type", "unknown")]. *)
Definition try_decode (msg : string) : Outcome PyVal :=
  match loads msg with
  | Ok event =>
      match event with
      | PyDict _ => Ok event
      | _ => Raise (mkExn AttributeError "object has no attribute 'get'")
      end
  | Raise e => Raise e
  end.

Definition decode_failure (msg error : string) : PyVal :=
  PyDict [("raw", PyStr msg); ("error", PyStr error);
          ("pattern", PyStr (sa_event_pattern args))].

(** The inner [try] with its two [except] clauses: the event to enqueue,
    or the exception that no clause matches. *)
Definition decode_message (msg : string) : Outcome PyVal :=
  match try_decode msg with
  | Ok event => Ok event
  | Raise e =>
      if caught_by e [JSONDecodeError]
      then Ok (decode_failure msg "json_decode_failed")
      else if caught_by e [UnicodeDecodeError; ValueError; TypeError]
      then Ok (decode_failure msg (exn_str e))
      else Raise e
  end.

(** The [except] clauses of the outer [try], for an exception raised
    while connecting or streaming. *)
Definition on_exception (backoff : Q) (e : Exn) : SupState * list Effect :=
  if caught_by e [CancelledError] then (Finished e, [])
  else if caught_by e [ConnectionClosed; WebSocketException; OSError; SSLError]
  then (BackoffWait backoff, [Sleep backoff])
  else (Finished e, []).

(** One resumption of the coroutine: it runs to its next suspension
    point.  [None]: the coroutine is not waiting for this wake-up. *)
Definition resume (st : SupState) (w : Wake) : option (SupState * list Effect) :=
  match st, w with
  | Created, Resolved => Some (Connecting (sa_backoff_initial args), [connect_call])
  | Created, Thrown e => Some (Finished e, [])
  | Connecting backoff, Resolved => Some (Streaming (sa_backoff_initial args), [])
  | Connecting backoff, Thrown e => Some (on_exception backoff e)
  | Streaming backoff, Message msg =>
      match decode_message msg with
      | Ok event => Some (Streaming backoff, [QueuePut (sa_queue args) event])
      | Raise e => Some (on_exception backoff e)
      end
  | Streaming backoff, Exhausted => Some (Connecting backoff, [connect_call])
  | Streaming backoff, Thrown e => Some (on_exception backoff e)
  | BackoffWait backoff, Resolved =>
      Some (Connecting (py_min (backoff * 2) (sa_backoff_max args)), [connect_call])
  | BackoffWait backoff, Thrown e => Some (Finished e, [])
  | _, _ => None
  end.

Fixpoint run (st : SupState) (wakes : list Wake) : option (SupState * list Effect) :=
  match wakes with
  | [] => Some (st, [])
  | w :: rest =>
      match resume st w with
      | None => None
      | Some (st1, eff1) =>
          match run st1 rest with
          | None => None
          | Some (st2, eff2) => Some (st2, (eff1 ++ eff2)%list)
          end
      end
  end.

(** The coroutine from its creation, driven by a list of wake-ups. *)
Definition _stream_single_pattern (wakes : list Wake)
    : option (SupState * list Effect) :=
  run Created wakes.

End Supervisor.

Definition sleeps (effects : list Effect) : list Q :=
  flat_map (fun e => match e with Sleep d => [d] | _ => [] end) effects.

(** A connection attempt that fails with [e], followed by the end of the
    back-off sleep. *)
Fixpoint failed_attempts (e : Exn) (k : nat) : list Wake :=
  match k with
  | O => []
  | S k' => Thrown e :: Resolved :: failed_attempts e k'
  end.

(** The exceptions that send the supervisor to its back-off sleep. *)
Definition connection_error (e : Exn) : bool :=
  negb (caught_by e [CancelledError])
  && caught_by e [ConnectionClosed; WebSocketException; OSError; SSLError].


(** ** Fan-out coordinator: [_stream_multiple_patterns] *)

(** An [asyncio.Task] wrapping one supervisor coroutine. [must_cancel]:
    [cancel()] was called and the [CancelledError] is still to be thrown
    into the coroutine. *)
Record Task : Type := mkTask {
  task_args : SupervisorArgs;
  task_state : SupState;
  must_cancel : bool
}.

(** [task.done()] *)
Definition done (t : Task) : bool :=
  match task_state t with
  | Finished _ => true
  | _ => false
  end.

(** [task.cancel()]: no effect on a task that is done. *)
Definition cancel (t : Task) : Task :=
  if done t then t else mkTask (task_args t) (task_state t) true.

Definition create_task (a : SupervisorArgs) : Task := mkTask a Created false.

(** Where the coordinator coroutine stands. *)
Inductive CoordState : Type :=
| AwaitGather               (* awaiting [gather] of all tasks *)
| AwaitUnwind (e : Exn)     (* awaiting [gather] with [return_exceptions=True],
                               inside the handler that caught [e] *)
| CoordReturned
| CoordRaised (e : Exn).

(** The cohort on the event loop: the supervisor tasks, the coordinator,
    and the effects performed so far, each with the index of its task. *)
Record Cohort : Type := mkCohort {
  tasks : list Task;
  coord : CoordState;
  trace : list (nat * Effect)
}.

Definition all_done (ts : list Task) : bool := forallb done ts.

(** The [for pattern in event_paths] loop. *)
Definition spawn (queue : QueueRef) (vault_addr : string)
    (event_paths : list string) (headers : gmap string string)
    (ping_interval : Z) (verify_ssl : bool) (backoff_initial backoff_max : Q)
    (filter_expression : option string) : list Task :=
  fold_left
    (fun tasks pattern =>
       (tasks ++ [create_task
                    (mkSupervisorArgs queue vault_addr pattern headers
                       ping_interval verify_ssl backoff_initial backoff_max
                       filter_expression)])%list)
    event_paths [].

(** The coordinator up to its first suspension.  [gather] of no task at
    all is already resolved, and the coordinator returns. *)
Definition _stream_multiple_patterns (queue : QueueRef) (vault_addr : string)
    (event_paths : list string) (headers : gmap string string)
    (ping_interval : Z) (verify_ssl : bool) (backoff_initial backoff_max : Q)
    (filter_expression : option string) : Cohort :=
  let tasks := spawn queue vault_addr event_paths headers ping_interval
                 verify_ssl backoff_initial backoff_max filter_expression in
  mkCohort tasks
    (match tasks with
     | [] => CoordReturned
     | _ :: _ => AwaitGather
     end) [].

(** The coordinator's first [await] of [gather] raised [e]: only a
    [CancelledError] enters the handler, which cancels every task and
    waits for all of them before it re-raises. *)
Definition coordinator_except (e : Exn) (ts : list Task) : list Task * CoordState :=
  if caught_by e [CancelledError] then
    let ts' := map cancel ts in
    (ts', if all_done ts' then CoordRaised e else AwaitUnwind e)
  else (ts, CoordRaised e).

Inductive LoopEvent : Type :=
| Wakeup (i : nat) (w : Wake)   (* the loop resumes task [i] with [w] *)
| CancelCoordinator.            (* the host cancels the coordinator *)

(** A task whose cancellation was requested is resumed with the
    [CancelledError] and with nothing else. *)
Definition deliverable (t : Task) (w : Wake) : bool :=
  if must_cancel t then
    match w with
    | Thrown e => caught_by e [CancelledError]
    | _ => false
    end
  else true.

Section EventLoop.

Variable loads : string -> Outcome PyVal.

Definition loop_step (c : Cohort) (ev : LoopEvent) : option Cohort :=
  match ev with
  | Wakeup i w =>
      match tasks c !! i with
      | None => None
      | Some t =>
          if deliverable t w then
            match resume loads (task_args t) (task_state t) w with
            | None => None
            | Some (st, eff) =>
                let ts := <[i := mkTask (task_args t) st false]> (tasks c) in
                let tr := (trace c ++ map (pair i) eff)%list in
                match st, coord c with
                | Finished e, AwaitGather =>
                    let (ts', co) := coordinator_except e ts in
                    Some (mkCohort ts' co tr)
                | Finished _, AwaitUnwind e0 =>
                    Some (mkCohort ts
                            (if all_done ts then CoordRaised e0 else AwaitUnwind e0) tr)
                | _, _ => Some (mkCohort ts (coord c) tr)
                end
            end
          else None
      end
  | CancelCoordinator =>
      match coord c with
      | AwaitGather =>
          let (ts', co) := coordinator_except cancelled (tasks c) in
          Some (mkCohort ts' co (trace c))
      | AwaitUnwind e => Some (mkCohort (map cancel (tasks c)) (AwaitUnwind e) (trace c))
      | _ => None
      end
  end.

Fixpoint loop_run (c : Cohort) (evs : list LoopEvent) : option Cohort :=
  match evs with
  | [] => Some c
  | ev :: rest =>
      match loop_step c ev with
      | None => None
      | Some c1 => loop_run c1 rest
      end
  end.

End EventLoop.

(** The loop starts each of the first [n] tasks. *)
Definition start_all (n : nat) : list LoopEvent :=
  map (fun i => Wakeup i Resolved) (seq 0 n).

(** The loop throws the pending [CancelledError] into each task of [ts]
    that is not done; the tasks are numbered from [i]. *)
Fixpoint deliver_cancels_from (i : nat) (ts : list Task) : list LoopEvent :=
  match ts with
  | [] => []
  | t :: rest =>
      if done t then deliver_cancels_from (S i) rest
      else Wakeup i (Thrown cancelled) :: deliver_cancels_from (S i) rest
  end.

Definition deliver_cancels (ts : list Task) : list LoopEvent :=
  deliver_cancels_from 0 ts.

(** ** Entry point: [main] *)

(** The [event_paths] option: one string or a list of strings. *)
Inductive EventPaths : Type :=
| PathStr (s : string)
| PathList (l : list string).

(** An option that [main] reads with [args.get(key, default)] and then
    converts: the key is absent, present with a null, or present with a
    value of the type the option schema declares.  Only an absent key
    gets the default. *)
Inductive Setting (A : Type) : Type :=
| Absent
| Null
| Value (a : A).
Arguments Absent {A}.
Arguments Null {A}.
Arguments Value {A} a.

(** [args.get(key, default)] where the value is not a null. *)
Definition setting_or {A : Type} (d : A) (s : Setting A) : A :=
  match s with
  | Value a => a
  | Absent | Null => d
  end.

(** The configuration mapping, typed by the option schema of the plugin.
    For the keys that [main] reads with [args.get(key)] and tests for
    truth (address, token, namespace, headers, filter) [None] is a key
    that is absent or null, which the code does not tell apart; the
    other keys are a [Setting]. *)
Record Args : Type := mkArgs {
  arg_vault_addr : option string;
  arg_vault_token : option string;
  arg_event_paths : Setting EventPaths;
  arg_verify_ssl : Setting bool;
  arg_ping_interval : Setting Z;
  arg_backoff_initial : Setting Q;
  arg_backoff_max : Setting Q;
  arg_namespace : option string;
  arg_headers : option (gmap string string);
  arg_filter_expression : option string
}.

(** [isinstance(event_paths, str)]: a single string becomes a list. *)
Definition normalize_paths (p : EventPaths) : list string :=
  match p with
  | PathStr s => [s]
  | PathList l => l
  end.

(** Truth value of a [dict]. *)
Definition dict_truthy (d : gmap string string) : bool := bool_decide (d ≠ ∅).

(** Lines 481 to 494: token, optional namespace, then
    [headers.update(custom_headers)], whose entries overwrite. *)
Definition assemble_headers (vault_token : string) (args : Args)
    : gmap string string :=
  let headers : gmap string string := ∅ in
  let headers := <["X-Vault-Token" := vault_token]> headers in
  let headers :=
    match arg_namespace args with
    | Some (String _ _ as namespace) => <["X-Vault-Namespace" := namespace]> headers
    | _ => headers
    end in
  let custom_headers := default ∅ (arg_headers args) in
  if dict_truthy custom_headers then custom_headers ∪ headers else headers.

(** [bool(args.get("verify_ssl", True))]: a null is false. *)
Definition verify_ssl_of (s : Setting bool) : bool :=
  match s with
  | Absent => true
  | Null => false
  | Value b => b
  end.

(** The [TypeError] of [len], [int] and [float] on a null. *)
Definition len_none : Exn := mkExn TypeError "object of type 'NoneType' has no len()".
Definition int_none : Exn :=
  mkExn TypeError
    "int() argument must be a string, a bytes-like object or a real number, not 'NoneType'".
Definition float_none : Exn :=
  mkExn TypeError "float() argument must be a string or a real number, not 'NoneType'".

Definition main (queue : QueueRef) (args : Args) : Outcome Cohort :=
  match arg_vault_addr args with
  | Some (String _ _ as vault_addr) =>
      match arg_vault_token args with
      | Some (String _ _ as vault_token) =>
          match arg_event_paths args with
          | Null => Raise len_none
          | Absent | Value _ =>
              let event_paths :=
                normalize_paths
                  (setting_or (PathList ["kv-v2/data-*"]) (arg_event_paths args)) in
              let headers := assemble_headers vault_token args in
              let verify_ssl := verify_ssl_of (arg_verify_ssl args) in
              match arg_ping_interval args with
              | Null => Raise int_none
              | Absent | Value _ =>
                  let ping_interval := setting_or 20%Z (arg_ping_interval args) in
                  match arg_backoff_initial args with
                  | Null => Raise float_none
                  | Absent | Value _ =>
                      let backoff_initial :=
                        setting_or 1%Q (arg_backoff_initial args) in
                      match arg_backoff_max args with
                      | Null => Raise float_none
                      | Absent | Value _ =>
                          let backoff_max :=
                            setting_or 30%Q (arg_backoff_max args) in
                          let filter_expression := arg_filter_expression args in
                          Ok (_stream_multiple_patterns queue vault_addr event_paths
                                headers ping_interval verify_ssl backoff_initial
                                backoff_max filter_expression)
                      end
                  end
              end
          end
      | _ => Raise (mkExn ValueError "vault_token parameter is required")
      end
  | _ => Raise (mkExn ValueError "vault_addr parameter is required")
  end.

(** The connection attempts that an outcome of [main] can lead to: the
    tasks it has created. *)
Definition spawned (r : Outcome Cohort) : list Task :=
  match r with
  | Ok c => tasks c
  | Raise _ => []
  end.

(** ** Definitions used by the statements *)

(** Characters that need no encoding inside a query component, and the
    escape character itself. *)
Definition url_char (c : ascii) : bool :=
  Urllib.always_safe c || Ascii.eqb c "/" || Ascii.eqb c "%".

(** Every character of [s] satisfies [p]. *)
Fixpoint all_chars (p : ascii -> bool) (s : string) : bool :=
  match s with
  | EmptyString => true
  | String c rest => p c && all_chars p rest
  end.


(** The supervisor of the documented example, with the default bounds. *)
Definition example_args : SupervisorArgs :=
  mkSupervisorArgs 0 "http://127.0.0.1:8200" "kv-v2/*" {["X-Vault-Token" := "t"]}
    20 true 1 30 None.

(** The record enqueued for a frame that is not well-formed JSON. *)
Definition json_decode_failed (event_pattern msg : string) : PyVal :=
  PyDict [("raw", PyStr msg); ("error", PyStr "json_decode_failed");
          ("pattern", PyStr event_pattern)].

(** Text frames that are JSON texts of each kind other than an object. *)
Definition non_object_frames : list string :=
  ["[1]"; "5"; dq +:+ "s" +:+ dq; "true"; "null"].

(** An option that the validation of [main] rejects: the key is absent,
    null, or holds the empty string. *)
Definition missing (o : option string) : Prop := truthy_opt_str o = false.

(** The documented configuration with a namespace and one extra header. *)
Definition namespaced_args : Args :=
  mkArgs (Some "http://127.0.0.1:8200") (Some "t") (Value (PathList ["kv-v2/*"]))
    Absent Absent Absent Absent (Some "ns1") (Some {["X-Extra" := "v"]}) None.

(** A configuration whose extra headers reuse the name of the token header. *)
Definition override_args : Args :=
  mkArgs (Some "http://127.0.0.1:8200") (Some "t") (Value (PathList ["kv-v2/*"]))
    Absent Absent Absent Absent None (Some {["X-Vault-Token" := "evil"]}) None.

(** A configuration whose address is present and empty. *)
Definition empty_addr_args : Args :=
  mkArgs (Some EmptyString) (Some "t") Absent Absent Absent Absent Absent None None None.

(** The cohort that [main] builds for [namespaced_args]. *)
Definition namespaced_cohort : Cohort :=
  _stream_multiple_patterns 0 "http://127.0.0.1:8200" ["kv-v2/*"]
    (assemble_headers "t" namespaced_args) 20 true 1 30 None.

(** A task after its first resumption. *)
Definition started (t : Task) : Task :=
  mkTask (task_args t) (Connecting (sa_backoff_initial (task_args t))) false.

(** The connection requests of the tasks [ts], numbered from [i]. *)
Fixpoint connects_from (i : nat) (ts : list Task) : list (nat * Effect) :=
  match ts with
  | [] => []
  | t :: rest => (i, connect_call (task_args t)) :: connects_from (S i) rest
  end.

(** After the coordinator's handler has run: every task is done or has
    its cancellation pending, and the coordinator either still waits with
    some task not done, or has re-raised with every task done. *)
Definition unwinding (c : Cohort) : Prop :=
  Forall (fun t => done t = true \/ must_cancel t = true) (tasks c)
  /\ ((coord c = AwaitUnwind cancelled /\ all_done (tasks c) = false)
      \/ (coord c = CoordRaised cancelled /\ all_done (tasks c) = true)).

(** A cohort of three patterns, as the coordinator creates it. *)
Definition three_patterns : Cohort :=
  _stream_multiple_patterns 0 "http://127.0.0.1:8200"
    ["kv-v2/*"; "database/*"; "kv-v1/*"] {["X-Vault-Token" := "t"]}
    20 true 1 30 None.

(** ** Definitions used by the further properties *)

(** The coroutine has raised. *)
Definition is_finished (st : SupState) : bool :=
  match st with
  | Finished _ => true
  | _ => false
  end.

(** [n] connections in a row, each opened and then closed cleanly by the
    peer, so that the frame iterator just stops. *)
Fixpoint clean_cycles (n : nat) : list Wake :=
  match n with
  | O => []
  | S k => Resolved :: Exhausted :: clean_cycles k
  end.

(** [d] lies between [lo] and [hi]. *)
Definition in_bounds (lo hi d : Q) : Prop := (lo <= d)%Q /\ (d <= hi)%Q.

(** The local [backoff] of a suspended supervisor lies between its bounds. *)
Definition backoff_ok (a : SupervisorArgs) (st : SupState) : Prop :=
  match st with
  | Connecting b | Streaming b | BackoffWait b =>
      in_bounds (sa_backoff_initial a) (sa_backoff_max a) b
  | Created | Finished _ => True
  end.

(** What an effect of the supervisor with arguments [a] looks like: a
    connection request is the one built from [a], an event goes to the
    queue of [a]. *)
Definition effect_of (a : SupervisorArgs) (eff : Effect) : Prop :=
  match eff with
  | Connect _ _ _ _ => eff = connect_call a
  | QueuePut q _ => q = sa_queue a
  | Sleep _ => True
  end.

(** An entry of the trace of a cohort whose tasks have the arguments
    [tasks_args]: an effect of the task it is numbered with. *)
Definition entry_of (tasks_args : list SupervisorArgs) (entry : nat * Effect) : Prop :=
  exists a, tasks_args !! fst entry = Some a /\ effect_of a (snd entry).

(** The record enqueued for a frame whose decoding raised the parse
    error [e] of the second handler. *)
Definition parse_failed (event_pattern msg : string) (e : Exn) : PyVal :=
  PyDict [("raw", PyStr msg); ("error", PyStr (exn_str e));
          ("pattern", PyStr event_pattern)].

(** A decoder at its integer digit limit: it raises a [ValueError] that
    is not a [JSONDecodeError]. *)
Definition digit_limit_loads (msg : string) : Outcome PyVal :=
  Raise (mkExn ValueError "Exceeds the limit (4300 digits) for integer string conversion").

(** A supervisor for a TLS address with verification switched off. *)
Definition tls_args : SupervisorArgs :=
  mkSupervisorArgs 0 "https://localhost:8200" "kv-v2/*" {["X-Vault-Token" := "dev-token"]}
    20 false 1 30 None.

(** The cohort [three_patterns] with every task started and the first
    one connected. *)
Definition three_running : Cohort :=
  mkCohort
    [mkTask (mkSupervisorArgs 0 "http://127.0.0.1:8200" "kv-v2/*"
               {["X-Vault-Token" := "t"]} 20 true 1 30 None) (Streaming 1) false;
     mkTask (mkSupervisorArgs 0 "http://127.0.0.1:8200" "database/*"
               {["X-Vault-Token" := "t"]} 20 true 1 30 None) (Connecting 1) false;
     mkTask (mkSupervisorArgs 0 "http://127.0.0.1:8200" "kv-v1/*"
               {["X-Vault-Token" := "t"]} 20 true 1 30 None) (Connecting 1) false]
    AwaitGather [].

(** Three tasks of which the first has died on a frame that is not an
    object, which has ended the coordinator as well. *)
Definition one_dead : Cohort :=
  mkCohort
    [mkTask (mkSupervisorArgs 0 "http://127.0.0.1:8200" "kv-v2/*"
               {["X-Vault-Token" := "t"]} 20 true 1 30 None)
       (Finished (mkExn AttributeError "object has no attribute 'get'")) false;
     mkTask (mkSupervisorArgs 0 "http://127.0.0.1:8200" "database/*"
               {["X-Vault-Token" := "t"]} 20 true 1 30 None) (Connecting 1) false;
     mkTask (mkSupervisorArgs 0 "http://127.0.0.1:8200" "kv-v1/*"
               {["X-Vault-Token" := "t"]} 20 true 1 30 None) (Connecting 1) false]
    (CoordRaised (mkExn AttributeError "object has no attribute 'get'")) [].

(** The development configuration of the documentation: a TLS address
    with [verify_ssl: false]. *)
Definition dev_args : Args :=
  mkArgs (Some "https://localhost:8200") (Some "dev-token")
    (Value (PathList ["kv-v2/*"])) (Value false) Absent Absent Absent None None None.

(** The cohort that [main] builds for [dev_args]. *)
Definition dev_cohort : Cohort :=
  _stream_multiple_patterns 0 "https://localhost:8200" ["kv-v2/*"]
    (assemble_headers "dev-token" dev_args) 20 false 1 30 None.

(** The text frame made of [n] opening square brackets. *)
Fixpoint brackets (n : nat) : string :=
  match n with
  | O => EmptyString
  | S k => String "[" (brackets k)
  end.

(** The text frame made of [n] digits 1. *)
Fixpoint ones (n : nat) : string :=
  match n with
  | O => EmptyString
  | S k => String "1" (ones k)
  end.

(** A configuration whose key [ping_interval] holds a null. *)
Definition null_ping_args : Args :=
  mkArgs (Some "http://127.0.0.1:8200") (Some "t") (Value (PathList ["kv-v2/*"]))
    Absent Null Absent Absent None None None.

(** A configuration with an empty list of patterns. *)
Definition no_paths_args : Args :=
  mkArgs (Some "http://127.0.0.1:8200") (Some "t") (Value (PathList []))
    Absent Absent Absent Absent None None None.

(** A configuration whose patterns option is a single string. *)
Definition one_string_args : Args :=
  mkArgs (Some "http://127.0.0.1:8200") (Some "t") (Value (PathStr "kv-v2/*"))
    Absent Absent Absent Absent None None None.

(** * Properties *)

(** ** URL builder *)

Example url_e2e :
  _build_event_url "http://127.0.0.1:8200" "kv-v2/*" None
  = "ws://127.0.0.1:8200/v1/sys/events/subscribe/kv-v2/*?json=true".
Proof. reflexivity. Qed.

Example url_filter :
  _build_event_url "https://v:8200" "kv-v2/*" (Some ("event_type == " +:+ dq +:+ "x" +:+ dq))
  = "wss://v:8200/v1/sys/events/subscribe/kv-v2/*?json=true&filter=event_type%20%3D%3D%20%22x%22".
Proof. reflexivity. Qed.

Lemma prefix_split (p s : string) :
  String.prefix p s = true -> exists r, s = p +:+ r.
Proof.
  revert s. induction p as [|a p IH]; intros s H.
  - exists s. reflexivity.
  - destruct s as [|b s]; [discriminate|].
    simpl in H. destruct (ascii_dec a b) as [->|]; [|discriminate].
    destruct (IH s H) as [r ->]. exists r. reflexivity.
Qed.

Lemma prefix_app (p r : string) : String.prefix p (p +:+ r) = true.
Proof.
  induction p as [|a p IH]; simpl.
  - destruct r; reflexivity.
  - destruct (ascii_dec a a); [exact IH | congruence].
Qed.

Lemma replace_from_match (old new : string) (c : ascii) (rest : string) :
  String.prefix old (String c rest) = true ->
  PyStr.replace_from old new 0 (String c rest)
  = new +:+ PyStr.replace_from old new (String.length old - 1) rest.
Proof. intros H. cbn [PyStr.replace_from]. rewrite H. reflexivity. Qed.

(** The part of the scheme translation that holds: a base address that
    starts with [https://] gives a URL that starts with [wss://]. *)
Lemma ws_scheme_https (vault_addr : string) :
  PyStr.startswith vault_addr "https://" = true ->
  PyStr.startswith (ws_scheme vault_addr) "wss://" = true.
Proof.
  intros H. unfold ws_scheme. rewrite H. unfold PyStr.startswith in *.
  destruct (prefix_split _ _ H) as [r ->].
  unfold PyStr.replace. cbn [String.append] in *.
  rewrite (replace_from_match _ _ _ _ H). apply prefix_app.
Qed.

(** And one that starts with [http://] gives a URL that starts with [ws://]. *)
Lemma ws_scheme_http (vault_addr : string) :
  PyStr.startswith vault_addr "http://" = true ->
  PyStr.startswith (ws_scheme vault_addr) "ws://" = true.
Proof.
  intros H. unfold ws_scheme, PyStr.startswith in *.
  destruct (prefix_split _ _ H) as [r ->].
  replace (String.prefix "https://" ("http://" +:+ r)) with false
    by (vm_compute; reflexivity).
  unfold PyStr.replace. cbn [String.append] in *.
  rewrite (replace_from_match _ _ _ _ H). apply prefix_app.
Qed.

(** C2, evaluated at an address that holds the scheme string a second
    time: [str.replace] without a count rewrites every occurrence, so the
    occurrence inside the address becomes [wss://] as well and no
    [https://] is left in the URL. *)
Theorem build_event_url_rewrites_inner_scheme :
  _build_event_url "https://vault.example.com/https://mirror" "kv-v2/*" None
  = "wss://vault.example.com/wss://mirror/v1/sys/events/subscribe/kv-v2/*?json=true"
  /\ PyStr.count_occ "https://"
       (_build_event_url "https://vault.example.com/https://mirror" "kv-v2/*" None) = 0
  /\ ws_scheme "vault.local/http://inner" = "vault.local/ws://inner".
Proof. repeat split; reflexivity. Qed.

(** C7: without a filter expression (absent or empty) the URL is the
    translated base, the subscription path, the pattern and the query
    [json=true], with nothing after it; the documented example holds. *)
Theorem build_event_url_no_filter (vault_addr event_pattern : string) :
  _build_event_url vault_addr event_pattern None
  = ws_scheme vault_addr +:+ "/v1/sys/events/subscribe/" +:+ event_pattern
      +:+ "?json=true"
  /\ _build_event_url vault_addr event_pattern (Some EmptyString)
     = _build_event_url vault_addr event_pattern None
  /\ _build_event_url "http://127.0.0.1:8200" "kv-v2/*" None
     = "ws://127.0.0.1:8200/v1/sys/events/subscribe/kv-v2/*?json=true".
Proof. repeat split; reflexivity. Qed.

(** Decoding undoes the encoding of one byte. *)
Lemma unquote_quote_byte (c : ascii) (rest : string) :
  Urllib.unquote (Urllib.quote_byte "/" c +:+ rest)
  = String c (Urllib.unquote rest).
Proof.
  destruct c as [b0 b1 b2 b3 b4 b5 b6 b7].
  destruct b0, b1, b2, b3, b4, b5, b6, b7; reflexivity.
Qed.

Lemma unquote_quote (s : string) : Urllib.unquote (Urllib.quote s) = s.
Proof.
  unfold Urllib.quote. induction s as [|c s IH]; [reflexivity|].
  cbn [Urllib.quote_from_bytes]. rewrite unquote_quote_byte, IH. reflexivity.
Qed.

Lemma all_chars_app p (s t : string) :
  all_chars p (s +:+ t) = all_chars p s && all_chars p t.
Proof.
  induction s as [|c s IH]; [reflexivity|].
  simpl. rewrite IH. apply andb_assoc.
Qed.

Lemma quote_byte_url_chars (c : ascii) :
  all_chars url_char (Urllib.quote_byte "/" c) = true.
Proof.
  destruct c as [b0 b1 b2 b3 b4 b5 b6 b7].
  destruct b0, b1, b2, b3, b4, b5, b6, b7; reflexivity.
Qed.

Lemma quote_url_chars (s : string) : all_chars url_char (Urllib.quote s) = true.
Proof.
  unfold Urllib.quote. induction s as [|c s IH]; [reflexivity|].
  cbn [Urllib.quote_from_bytes].
  rewrite all_chars_app, quote_byte_url_chars, IH. reflexivity.
Qed.

(** C8: a non-empty filter expression is appended as [&filter=] followed
    by its percent-encoding; the encoding holds only unreserved
    characters, [/] and escapes, and decoding it gives the expression
    back. *)
Theorem build_event_url_filter_roundtrip
    (vault_addr event_pattern filter_expression : string) :
  filter_expression <> EmptyString ->
  _build_event_url vault_addr event_pattern (Some filter_expression)
  = _build_event_url vault_addr event_pattern None
      +:+ "&filter=" +:+ Urllib.quote filter_expression
  /\ all_chars url_char (Urllib.quote filter_expression) = true
  /\ Urllib.unquote (Urllib.quote filter_expression) = filter_expression.
Proof.
  intros Hne. split; [|split].
  - destruct filter_expression as [|c f]; [congruence|].
    reflexivity.
  - apply quote_url_chars.
  - apply unquote_quote.
Qed.

(** C8 at the documented filter, which holds spaces, [=] and quotes. *)
Lemma build_event_url_filter_roundtrip_witness :
  let f := "event_type == " +:+ dq +:+ "kv-v2/data-write" +:+ dq in
  _build_event_url "http://127.0.0.1:8200" "kv-v2/*" (Some f)
  = _build_event_url "http://127.0.0.1:8200" "kv-v2/*" None
      +:+ "&filter=" +:+ Urllib.quote f
  /\ all_chars url_char (Urllib.quote f) = true
  /\ Urllib.unquote (Urllib.quote f) = f.
Proof.
  apply (build_event_url_filter_roundtrip "http://127.0.0.1:8200" "kv-v2/*").
  discriminate.
Defined.

(** ** Connection supervisor *)

Section SupervisorFacts.

Variable loads : string -> Outcome PyVal.
Variable args : SupervisorArgs.



Lemma sleeps_app (e1 e2 : list Effect) :
  sleeps (e1 ++ e2)%list = (sleeps e1 ++ sleeps e2)%list.
Proof. unfold sleeps. apply flat_map_app. Qed.

Lemma on_exception_connection_error (b : Q) (e : Exn) :
  connection_error e = true ->
  on_exception b e = (BackoffWait b, [Sleep b]).
Proof.
  unfold connection_error, on_exception. intros H.
  apply andb_prop in H as [H1 H2]. apply negb_true_iff in H1.
  rewrite H1, H2. reflexivity.
Qed.






End SupervisorFacts.




(** The delays of seven failures with the default bounds. *)
Example default_backoff_delays :
  option_map (fun r => sleeps (snd r))
    (_stream_single_pattern Json.loads example_args
       (Resolved :: failed_attempts (mkExn OSError "refused") 7))
  = Some [1; 2; 4; 8; 16; 30; 30]%Q.
Proof. vm_compute. reflexivity. Qed.

(** X18: a text frame on which the decoder raises [JSONDecodeError] makes
    the streaming supervisor enqueue exactly one record, holding the raw
    frame, the marker [json_decode_failed] and the pattern; the supervisor
    stays in its streaming state, and whatever arrives next is handled as
    if the frame had not been there. *)
Theorem malformed_frame_degrades (loads : string -> Outcome PyVal)
    (args : SupervisorArgs) (b : Q) (msg : string) (e : Exn) (wakes : list Wake) :
  loads msg = Raise e ->
  exn_class e = JSONDecodeError ->
  resume loads args (Streaming b) (Message msg)
  = Some (Streaming b,
          [QueuePut (sa_queue args) (json_decode_failed (sa_event_pattern args) msg)])
  /\ run loads args (Streaming b) (Message msg :: wakes)
     = option_map
         (fun r => (fst r,
                    QueuePut (sa_queue args)
                      (json_decode_failed (sa_event_pattern args) msg) :: snd r))
         (run loads args (Streaming b) wakes).
Proof.
  intros Hload Hclass.
  assert (Hstep : resume loads args (Streaming b) (Message msg)
                  = Some (Streaming b,
                          [QueuePut (sa_queue args)
                             (json_decode_failed (sa_event_pattern args) msg)])).
  { cbn [resume]. unfold decode_message, try_decode. rewrite Hload.
    unfold caught_by. cbn [existsb]. rewrite Hclass. reflexivity. }
  split; [exact Hstep|].
  cbn [run]. rewrite Hstep.
  destruct (run loads args (Streaming b) wakes) as [[st effs]|]; reflexivity.
Qed.

(** X18 at a truncated frame followed by a well-formed one. *)
Lemma malformed_frame_degrades_witness :
  resume Json.loads example_args (Streaming 1) (Message "{bad")
  = Some (Streaming 1, [QueuePut 0 (json_decode_failed "kv-v2/*" "{bad")])
  /\ run Json.loads example_args (Streaming 1) [Message "{bad"; Message "{}"]
     = option_map
         (fun r => (fst r, QueuePut 0 (json_decode_failed "kv-v2/*" "{bad") :: snd r))
         (run Json.loads example_args (Streaming 1) [Message "{}"]).
Proof.
  apply (malformed_frame_degrades Json.loads example_args 1 "{bad"
           (mkExn JSONDecodeError EmptyString) [Message "{}"]).
  - vm_compute. reflexivity.
  - reflexivity.
Defined.

Lemma brackets_length (n : nat) : String.length (brackets n) = n.
Proof. induction n as [|n IH]; [reflexivity|]. cbn [brackets String.length]. rewrite IH. reflexivity. Qed.

Lemma scan_once_bracket (fuel L D d : nat) (r : string) :
  Json.scan_once (S fuel) L D d (String "[" r)
  = if (L <=? d)%nat then Raise (Json.recursion_error "array")
    else match Json.skip_ws r with
         | String c1 r1 =>
             if Ascii.eqb c1 "]" then Ok (PyList [], r1)
             else Json.array_items fuel L D (S d) (String c1 r1) []
         | EmptyString => Raise Json.decode_error
         end.
Proof. reflexivity. Qed.

Lemma array_items_raise (fuel L D d : nat) (s : string) (acc : list PyVal) (e : Exn) :
  Json.scan_once fuel L D d s = Raise e ->
  Json.array_items (S fuel) L D d s acc = Raise e.
Proof. intros H. cbn [Json.array_items]. rewrite H. reflexivity. Qed.

(** The decoder on a frame of opening brackets: it runs out of room when
    the brackets outnumber what the interpreter can nest, and otherwise
    reaches the end of the text without a value. *)
Lemma brackets_outcome (L D n : nat) :
  forall fuel d, (2 * S n <= fuel)%nat ->
    Json.scan_once fuel L D d (brackets (S n))
    = Raise (if (L <? d + S n)%nat then Json.recursion_error "array"
             else Json.decode_error).
Proof.
  induction n as [|n IH]; intros fuel d Hfuel.
  - destruct fuel as [|fuel]; [lia|].
    cbn [brackets]. rewrite scan_once_bracket. cbn [Json.skip_ws].
    destruct (Nat.leb_spec L d); destruct (Nat.ltb_spec L (d + 1)); try lia; reflexivity.
  - destruct fuel as [|[|fuel]]; try lia.
    change (brackets (S (S n))) with (String "[" (brackets (S n))).
    rewrite scan_once_bracket.
    destruct (Nat.leb_spec L d).
    + destruct (Nat.ltb_spec L (d + S (S n))); [reflexivity | lia].
    + change (Json.skip_ws (brackets (S n))) with (String "[" (brackets n)).
      change (Ascii.eqb "[" "]") with false. cbv iota.
      change (String "[" (brackets n)) with (brackets (S n)).
      rewrite (array_items_raise fuel L D (S d) (brackets (S n)) []
                 (if (L <? S d + S n)%nat then Json.recursion_error "array"
                  else Json.decode_error)).
      * replace (S d + S n)%nat with (d + S (S n))%nat by lia. reflexivity.
      * apply IH. lia.
Qed.

Lemma loads_limited_brackets (L D n : nat) :
  Json.loads_limited L D (brackets (S n))
  = Raise (if (L <? S n)%nat then Json.recursion_error "array" else Json.decode_error).
Proof.
  unfold Json.loads_limited.
  change (Json.skip_ws (brackets (S n))) with (brackets (S n)).
  rewrite brackets_outcome by (rewrite brackets_length; lia).
  reflexivity.
Qed.

(** C4, evaluated at frames that are not well-formed JSON and too deep:
    on the frame of [L + 1 + k] opening brackets a decoder with room for
    [L] nested containers raises [RecursionError] (with room for all of
    them it rejects the frame with [JSONDecodeError]); no handler of the
    supervisor matches it, so the coroutine finishes with that exception,
    enqueues nothing and accepts no further wake-up.  With the defaults
    of the interpreter this is the frame of 2000 brackets. *)
Theorem deep_frame_kills_supervisor (L D k : nat) (args : SupervisorArgs) (b : Q) :
  Json.loads_limited L D (brackets (S L + k)) = Raise (Json.recursion_error "array")
  /\ Json.loads_limited (S L + k) D (brackets (S L + k)) = Raise Json.decode_error
  /\ resume (Json.loads_limited L D) args (Streaming b) (Message (brackets (S L + k)))
     = Some (Finished (Json.recursion_error "array"), [])
  /\ (forall w rest,
        run (Json.loads_limited L D) args (Streaming b)
          (Message (brackets (S L + k)) :: w :: rest) = None)
  /\ Json.loads (brackets 2000) = Raise (Json.recursion_error "array")
  /\ resume Json.loads args (Streaming b) (Message (brackets 2000))
     = Some (Finished (Json.recursion_error "array"), []).
Proof.
  assert (Hdeep : Json.loads_limited L D (brackets (S L + k))
                  = Raise (Json.recursion_error "array")).
  { cbn [Nat.add]. rewrite loads_limited_brackets.
    destruct (Nat.ltb_spec L (S (L + k))); [reflexivity | lia]. }
  assert (Hstep : forall loads frame,
            loads frame = Raise (Json.recursion_error "array") ->
            resume loads args (Streaming b) (Message frame)
            = Some (Finished (Json.recursion_error "array"), [])).
  { intros loads frame H. cbn [resume]. unfold decode_message, try_decode.
    rewrite H. reflexivity. }
  assert (Hdefault : Json.loads (brackets 2000) = Raise (Json.recursion_error "array")).
  { unfold Json.loads, Json.recursion_limit.
    change (brackets 2000) with (brackets (S 1999)).
    rewrite loads_limited_brackets. reflexivity. }
  split; [exact Hdeep|]. split; [|split; [|split; [|split]]].
  - cbn [Nat.add]. rewrite loads_limited_brackets.
    destruct (Nat.ltb_spec (S (L + k)) (S (L + k))); [lia | reflexivity].
  - apply Hstep. exact Hdeep.
  - intros w rest. cbn [run]. rewrite (Hstep _ _ Hdeep). cbn [run].
    destruct w; reflexivity.
  - exact Hdefault.
  - apply Hstep. exact Hdefault.
Qed.

(** A decoded value without a [get] attribute ends the coroutine. *)
Lemma non_object_raises (loads : string -> Outcome PyVal) (args : SupervisorArgs)
    (b : Q) (msg : string) (v : PyVal) :
  loads msg = Ok v ->
  (forall d, v <> PyDict d) ->
  resume loads args (Streaming b) (Message msg)
  = Some (Finished (mkExn AttributeError "object has no attribute 'get'"), []).
Proof.
  intros Hload Hv. cbn [resume]. unfold decode_message, try_decode. rewrite Hload.
  destruct v; try reflexivity. exfalso. eapply Hv. reflexivity.
Qed.

Lemma finished_is_final (loads : string -> Outcome PyVal) (args : SupervisorArgs)
    (e : Exn) (w : Wake) :
  resume loads args (Finished e) w = None.
Proof. destruct w; reflexivity. Qed.

(** C10: each of the frames [[1]], [5], ["s"], [true], [null] decodes to a
    value that is not a dict; on it the streaming supervisor raises an
    [AttributeError] that no handler matches: the coroutine is finished
    with that exception, has enqueued nothing, requested no connection
    and no sleep, and accepts no further wake-up. *)
Theorem non_object_frame_terminates (args : SupervisorArgs) (b : Q) :
  Forall
    (fun msg =>
       exists v e,
         Json.loads msg = Ok v
         /\ (forall d, v <> PyDict d)
         /\ exn_class e = AttributeError
         /\ caught_by e [JSONDecodeError] = false
         /\ caught_by e [UnicodeDecodeError; ValueError; TypeError] = false
         /\ caught_by e [CancelledError] = false
         /\ caught_by e [ConnectionClosed; WebSocketException; OSError; SSLError] = false
         /\ resume Json.loads args (Streaming b) (Message msg) = Some (Finished e, [])
         /\ forall w rest,
              run Json.loads args (Streaming b) (Message msg :: w :: rest) = None)
    non_object_frames.
Proof.
  assert (Hgen : forall msg v, Json.loads msg = Ok v -> (forall d, v <> PyDict d) ->
            exists v e,
              Json.loads msg = Ok v
              /\ (forall d, v <> PyDict d)
              /\ exn_class e = AttributeError
              /\ caught_by e [JSONDecodeError] = false
              /\ caught_by e [UnicodeDecodeError; ValueError; TypeError] = false
              /\ caught_by e [CancelledError] = false
              /\ caught_by e [ConnectionClosed; WebSocketException; OSError; SSLError]
                 = false
              /\ resume Json.loads args (Streaming b) (Message msg) = Some (Finished e, [])
              /\ forall w rest,
                   run Json.loads args (Streaming b) (Message msg :: w :: rest) = None).
  { intros msg v Hload Hv.
    pose proof (non_object_raises Json.loads args b msg v Hload Hv) as Hstep.
    exists v, (mkExn AttributeError "object has no attribute 'get'").
    repeat split; try reflexivity; try assumption.
    intros w rest. cbn [run]. rewrite Hstep. cbn [run].
    rewrite finished_is_final. reflexivity. }
  unfold non_object_frames.
  repeat constructor.
  - apply (Hgen _ (PyList [PyInt 1])); [vm_compute; reflexivity | discriminate].
  - apply (Hgen _ (PyInt 5)); [vm_compute; reflexivity | discriminate].
  - apply (Hgen _ (PyStr "s")); [vm_compute; reflexivity | discriminate].
  - apply (Hgen _ (PyBool true)); [vm_compute; reflexivity | discriminate].
  - apply (Hgen _ PyNone); [vm_compute; reflexivity | discriminate].
Qed.

(** ** Entry point *)

Lemma assemble_headers_custom (vault_token : string) (args : Args) (k v : string) :
  default ∅ (arg_headers args) !! k = Some v ->
  assemble_headers vault_token args !! k = Some v.
Proof.
  intros Hk. unfold assemble_headers, dict_truthy. case_bool_decide as Hne.
  - apply lookup_union_Some_l. exact Hk.
  - rewrite Hne, lookup_empty in Hk. discriminate.
Qed.

Lemma assemble_headers_default (vault_token : string) (args : Args) (k : string) :
  default ∅ (arg_headers args) !! k = None ->
  assemble_headers vault_token args !! k
  = if String.eqb k "X-Vault-Token" then Some vault_token
    else if String.eqb k "X-Vault-Namespace"
         then (if truthy_opt_str (arg_namespace args) then arg_namespace args else None)
         else None.
Proof.
  intros Hk. unfold assemble_headers, dict_truthy.
  assert (Hbase :
    (match arg_namespace args with
     | Some (String _ _ as namespace) =>
         <["X-Vault-Namespace" := namespace]>
           (<["X-Vault-Token" := vault_token]> (∅ : gmap string string))
     | _ => <["X-Vault-Token" := vault_token]> (∅ : gmap string string)
     end) !! k
    = if String.eqb k "X-Vault-Token" then Some vault_token
      else if String.eqb k "X-Vault-Namespace"
           then (if truthy_opt_str (arg_namespace args) then arg_namespace args else None)
           else None).
  { destruct (String.eqb_spec k "X-Vault-Token") as [-> | Hk1];
      destruct (arg_namespace args) as [[|c ns]|]; cbn [truthy_opt_str];
      simplify_map_eq; try reflexivity;
      destruct (String.eqb_spec k "X-Vault-Namespace") as [-> | Hk2];
      simplify_map_eq; reflexivity. }
  case_bool_decide; [rewrite lookup_union_r by exact Hk|]; exact Hbase.
Qed.

(** What a successful [main] has read from the configuration. *)
Lemma main_ok (queue : QueueRef) (args : Args) (c : Cohort) :
  main queue args = Ok c ->
  exists vault_addr vault_token,
    arg_vault_addr args = Some vault_addr /\ vault_addr <> EmptyString
    /\ arg_vault_token args = Some vault_token /\ vault_token <> EmptyString
    /\ arg_event_paths args <> Null /\ arg_ping_interval args <> Null
    /\ arg_backoff_initial args <> Null /\ arg_backoff_max args <> Null
    /\ c = _stream_multiple_patterns queue vault_addr
             (normalize_paths
                (setting_or (PathList ["kv-v2/data-*"]) (arg_event_paths args)))
             (assemble_headers vault_token args)
             (setting_or 20%Z (arg_ping_interval args))
             (verify_ssl_of (arg_verify_ssl args))
             (setting_or 1%Q (arg_backoff_initial args))
             (setting_or 30%Q (arg_backoff_max args))
             (arg_filter_expression args).
Proof.
  unfold main. intros Hmain.
  destruct (arg_vault_addr args) as [[|a s]|]; try discriminate.
  destruct (arg_vault_token args) as [[|b t]|]; try discriminate.
  destruct (arg_event_paths args) as [| |p] eqn:Hp; try discriminate;
    destruct (arg_ping_interval args) as [| |z] eqn:Hz; try discriminate;
    destruct (arg_backoff_initial args) as [| |bi] eqn:Hbi; try discriminate;
    destruct (arg_backoff_max args) as [| |bm] eqn:Hbm; try discriminate;
    injection Hmain as <-; exists (String a s), (String b t);
    repeat split; try discriminate; reflexivity.
Qed.

(** And the converse: with address and token there and no null among
    the converted options, [main] hands over to the coordinator. *)
Lemma main_delegates (queue : QueueRef) (args : Args) (vault_addr vault_token : string) :
  arg_vault_addr args = Some vault_addr -> vault_addr <> EmptyString ->
  arg_vault_token args = Some vault_token -> vault_token <> EmptyString ->
  arg_event_paths args <> Null -> arg_ping_interval args <> Null ->
  arg_backoff_initial args <> Null -> arg_backoff_max args <> Null ->
  main queue args
  = Ok (_stream_multiple_patterns queue vault_addr
          (normalize_paths
             (setting_or (PathList ["kv-v2/data-*"]) (arg_event_paths args)))
          (assemble_headers vault_token args)
          (setting_or 20%Z (arg_ping_interval args))
          (verify_ssl_of (arg_verify_ssl args))
          (setting_or 1%Q (arg_backoff_initial args))
          (setting_or 30%Q (arg_backoff_max args))
          (arg_filter_expression args)).
Proof.
  unfold main. intros -> Ha -> Ht Hp Hz Hbi Hbm.
  destruct vault_addr as [|a s]; [congruence|].
  destruct vault_token as [|b t]; [congruence|].
  destruct (arg_event_paths args) as [| |p]; try congruence;
    destruct (arg_ping_interval args) as [| |z]; try congruence;
    destruct (arg_backoff_initial args) as [| |bi]; try congruence;
    destruct (arg_backoff_max args) as [| |bm]; try congruence; reflexivity.
Qed.

(** Every task of the spawn loop gets the same headers. *)
Lemma spawn_headers (queue : QueueRef) (vault_addr : string) (event_paths : list string)
    (headers : gmap string string) (ping_interval : Z) (verify_ssl : bool)
    (backoff_initial backoff_max : Q) (filter_expression : option string) :
  Forall (fun t => sa_headers (task_args t) = headers)
    (spawn queue vault_addr event_paths headers ping_interval verify_ssl
       backoff_initial backoff_max filter_expression).
Proof.
  unfold spawn.
  assert (Hgen : forall init,
    Forall (fun t => sa_headers (task_args t) = headers) init ->
    Forall (fun t => sa_headers (task_args t) = headers)
      (fold_left
         (fun tasks pattern =>
            (tasks ++ [create_task
                         (mkSupervisorArgs queue vault_addr pattern headers
                            ping_interval verify_ssl backoff_initial backoff_max
                            filter_expression)])%list)
         event_paths init)).
  { induction event_paths as [|p paths IH]; intros init Hinit; [exact Hinit|].
    cbn [fold_left]. apply IH. apply Forall_app. split; [exact Hinit|].
    constructor; [reflexivity | constructor]. }
  apply Hgen. constructor.
Qed.

(** C1, as the code has it: the token header is always present and the
    namespace header is set by [main] only for a non-empty namespace; the
    caller's extra headers are merged last and win on every key, the two
    mandatory names included; a name the caller does not supply keeps the
    value [main] gave it. *)
Theorem main_headers (queue : QueueRef) (args : Args) (c : Cohort) :
  main queue args = Ok c ->
  exists vault_token headers,
    arg_vault_token args = Some vault_token
    /\ Forall (fun t => sa_headers (task_args t) = headers) (tasks c)
    /\ is_Some (headers !! "X-Vault-Token")
    /\ (forall k v, default ∅ (arg_headers args) !! k = Some v ->
                    headers !! k = Some v)
    /\ (default ∅ (arg_headers args) !! "X-Vault-Token" = None ->
        headers !! "X-Vault-Token" = Some vault_token)
    /\ (default ∅ (arg_headers args) !! "X-Vault-Namespace" = None ->
        headers !! "X-Vault-Namespace"
        = if truthy_opt_str (arg_namespace args) then arg_namespace args else None)
    /\ (forall k, k <> "X-Vault-Token" -> k <> "X-Vault-Namespace" ->
                  default ∅ (arg_headers args) !! k = None -> headers !! k = None).
Proof.
  intros Hmain.
  destruct (main_ok queue args c Hmain)
    as (vault_addr & tok & _ & _ & Htok & _ & _ & _ & _ & _ & ->).
  exists tok, (assemble_headers tok args).
  split; [exact Htok|]. split; [|split; [|split; [|split; [|split]]]].
  - unfold _stream_multiple_patterns. cbn [tasks]. apply spawn_headers.
  - destruct (default ∅ (arg_headers args) !! "X-Vault-Token") as [v|] eqn:Hc.
    + exists v. apply assemble_headers_custom. exact Hc.
    + exists tok. rewrite assemble_headers_default by exact Hc. reflexivity.
  - intros k v. apply assemble_headers_custom.
  - intros Hc. rewrite assemble_headers_default by exact Hc. reflexivity.
  - intros Hc. rewrite assemble_headers_default by exact Hc. reflexivity.
  - intros k Hk1 Hk2 Hc. rewrite assemble_headers_default by exact Hc.
    apply String.eqb_neq in Hk1, Hk2. rewrite Hk1, Hk2. reflexivity.
Qed.

(** C1 at the documented configuration. *)
Lemma main_headers_witness :
  exists vault_token headers,
    arg_vault_token namespaced_args = Some vault_token
    /\ Forall (fun t => sa_headers (task_args t) = headers) (tasks namespaced_cohort)
    /\ is_Some (headers !! "X-Vault-Token")
    /\ (forall k v, default ∅ (arg_headers namespaced_args) !! k = Some v ->
                    headers !! k = Some v)
    /\ (default ∅ (arg_headers namespaced_args) !! "X-Vault-Token" = None ->
        headers !! "X-Vault-Token" = Some vault_token)
    /\ (default ∅ (arg_headers namespaced_args) !! "X-Vault-Namespace" = None ->
        headers !! "X-Vault-Namespace"
        = if truthy_opt_str (arg_namespace namespaced_args)
          then arg_namespace namespaced_args else None)
    /\ (forall k, k <> "X-Vault-Token" -> k <> "X-Vault-Namespace" ->
                  default ∅ (arg_headers namespaced_args) !! k = None ->
                  headers !! k = None).
Proof.
  apply (main_headers 0 namespaced_args namespaced_cohort). reflexivity.
Defined.

(** The three headers of the documented configuration. *)
Example namespaced_headers :
  assemble_headers "t" namespaced_args !! "X-Vault-Token" = Some "t"
  /\ assemble_headers "t" namespaced_args !! "X-Vault-Namespace" = Some "ns1"
  /\ assemble_headers "t" namespaced_args !! "X-Extra" = Some "v".
Proof. repeat split; vm_compute; reflexivity. Qed.

(** C1 as stated fails: a caller-supplied [X-Vault-Token] replaces the
    configured token in the headers of every supervisor. *)
Lemma caller_overrides_token :
  ~ (forall (queue : QueueRef) (args : Args) (c : Cohort) (vault_token : string),
       arg_vault_token args = Some vault_token ->
       main queue args = Ok c ->
       Forall (fun t => sa_headers (task_args t) !! "X-Vault-Token" = Some vault_token)
         (tasks c)).
Proof.
  intros H.
  specialize (H 0 override_args
                (_stream_multiple_patterns 0 "http://127.0.0.1:8200" ["kv-v2/*"]
                   (assemble_headers "t" override_args) 20 true 1 30 None)
                "t" eq_refl eq_refl).
  inversion H as [|t ts Ht _]; subst. vm_compute in Ht. discriminate.
Qed.

(** C6, as the code has it: [main] raises [ValueError] and creates no
    task, hence attempts no connection, when the address or the token is
    missing (absent, null or empty); with both there it raises
    [TypeError], again before any task exists, when [event_paths],
    [ping_interval], [backoff_initial] or [backoff_max] is a null; and
    otherwise it hands address, patterns, headers and the converted
    options to the coordinator, a null [verify_ssl] counting as false. *)
Theorem main_validates (queue : QueueRef) (args : Args) :
  (missing (arg_vault_addr args) \/ missing (arg_vault_token args) ->
   exists msg,
     main queue args = Raise (mkExn ValueError msg)
     /\ spawned (main queue args) = [])
  /\ (~ missing (arg_vault_addr args) -> ~ missing (arg_vault_token args) ->
      arg_event_paths args = Null \/ arg_ping_interval args = Null
      \/ arg_backoff_initial args = Null \/ arg_backoff_max args = Null ->
      exists msg,
        main queue args = Raise (mkExn TypeError msg)
        /\ spawned (main queue args) = [])
  /\ (~ missing (arg_vault_addr args) -> ~ missing (arg_vault_token args) ->
      arg_event_paths args <> Null -> arg_ping_interval args <> Null ->
      arg_backoff_initial args <> Null -> arg_backoff_max args <> Null ->
      exists vault_addr vault_token,
        arg_vault_addr args = Some vault_addr
        /\ arg_vault_token args = Some vault_token
        /\ main queue args
           = Ok (_stream_multiple_patterns queue vault_addr
                   (normalize_paths
                      (setting_or (PathList ["kv-v2/data-*"]) (arg_event_paths args)))
                   (assemble_headers vault_token args)
                   (setting_or 20%Z (arg_ping_interval args))
                   (verify_ssl_of (arg_verify_ssl args))
                   (setting_or 1%Q (arg_backoff_initial args))
                   (setting_or 30%Q (arg_backoff_max args))
                   (arg_filter_expression args))).
Proof.
  split; [|split].
  - unfold missing, main. intros [H | H].
    + destruct (arg_vault_addr args) as [[|a s]|]; try discriminate;
        eexists; split; reflexivity.
    + destruct (arg_vault_addr args) as [[|a s]|];
        try (eexists; split; reflexivity).
      destruct (arg_vault_token args) as [[|b t]|]; try discriminate;
        eexists; split; reflexivity.
  - unfold missing, main. intros Ha Ht Hnull.
    destruct (arg_vault_addr args) as [[|a s]|]; try (exfalso; apply Ha; reflexivity).
    destruct (arg_vault_token args) as [[|b t]|]; try (exfalso; apply Ht; reflexivity).
    destruct (arg_event_paths args) as [| |p]; try (eexists; split; reflexivity);
      (destruct (arg_ping_interval args) as [| |z]; try (eexists; split; reflexivity);
       (destruct (arg_backoff_initial args) as [| |bi];
        try (eexists; split; reflexivity);
        (destruct (arg_backoff_max args) as [| |bm];
         try (eexists; split; reflexivity);
         exfalso; destruct Hnull as [H | [H | [H | H]]]; discriminate))).
  - unfold missing. intros Ha Ht Hp Hz Hbi Hbm.
    destruct (arg_vault_addr args) as [[|a s]|] eqn:Eaddr;
      try (exfalso; apply Ha; reflexivity).
    destruct (arg_vault_token args) as [[|b t]|] eqn:Etok;
      try (exfalso; apply Ht; reflexivity).
    exists (String a s), (String b t). split; [reflexivity|]. split; [reflexivity|].
    apply main_delegates; try assumption; discriminate.
Qed.

(** C6 at a configuration with an empty address, at one with a null
    [ping_interval] and at a complete one. *)
Lemma main_validates_witness :
  (exists msg,
     main 0 empty_addr_args = Raise (mkExn ValueError msg)
     /\ spawned (main 0 empty_addr_args) = [])
  /\ (exists msg,
        main 0 null_ping_args = Raise (mkExn TypeError msg)
        /\ spawned (main 0 null_ping_args) = [])
  /\ (exists vault_addr vault_token,
        arg_vault_addr namespaced_args = Some vault_addr
        /\ arg_vault_token namespaced_args = Some vault_token
        /\ main 0 namespaced_args
           = Ok (_stream_multiple_patterns 0 vault_addr
                   (normalize_paths
                      (setting_or (PathList ["kv-v2/data-*"])
                         (arg_event_paths namespaced_args)))
                   (assemble_headers vault_token namespaced_args)
                   (setting_or 20%Z (arg_ping_interval namespaced_args))
                   (verify_ssl_of (arg_verify_ssl namespaced_args))
                   (setting_or 1%Q (arg_backoff_initial namespaced_args))
                   (setting_or 30%Q (arg_backoff_max namespaced_args))
                   (arg_filter_expression namespaced_args))).
Proof.
  split; [|split].
  - apply (proj1 (main_validates 0 empty_addr_args)). left. reflexivity.
  - apply (proj1 (proj2 (main_validates 0 null_ping_args)));
      [unfold missing; simpl; discriminate | unfold missing; simpl; discriminate |].
    right. left. reflexivity.
  - apply (proj2 (proj2 (main_validates 0 namespaced_args)));
      try (unfold missing; simpl; discriminate); simpl; discriminate.
Defined.

(** C6 as stated fails: address and token are both there, the key
    [ping_interval] holds a null, and [main] raises a [TypeError] instead
    of starting the coordinator. *)
Lemma main_raises_on_null_option :
  ~ (forall (queue : QueueRef) (args : Args),
       ~ missing (arg_vault_addr args) -> ~ missing (arg_vault_token args) ->
       exists c, main queue args = Ok c).
Proof.
  intros H.
  destruct (H 0 null_ping_args) as [c Hc].
  - unfold missing. simpl. discriminate.
  - unfold missing. simpl. discriminate.
  - discriminate Hc.
Qed.

(** The boundary of the validation: a key that is present and holds the
    empty string is rejected like an absent one. *)
Example main_rejects_empty_addr :
  is_Some (arg_vault_addr empty_addr_args)
  /\ main 0 empty_addr_args = Raise (mkExn ValueError "vault_addr parameter is required").
Proof. split; [exists EmptyString|]; reflexivity. Qed.

(** ** Fan-out coordinator *)

Lemma spawn_map (queue : QueueRef) (vault_addr : string) (event_paths : list string)
    (headers : gmap string string) (ping_interval : Z) (verify_ssl : bool)
    (backoff_initial backoff_max : Q) (filter_expression : option string) :
  spawn queue vault_addr event_paths headers ping_interval verify_ssl
    backoff_initial backoff_max filter_expression
  = map (fun pattern =>
           create_task (mkSupervisorArgs queue vault_addr pattern headers
                          ping_interval verify_ssl backoff_initial backoff_max
                          filter_expression))
      event_paths.
Proof.
  unfold spawn.
  set (mk := fun pattern => create_task (mkSupervisorArgs queue vault_addr pattern headers
                          ping_interval verify_ssl backoff_initial backoff_max
                          filter_expression)).
  assert (Hgen : forall init,
            fold_left (fun tasks pattern => (tasks ++ [mk pattern])%list) event_paths init
            = (init ++ map mk event_paths)%list).
  { induction event_paths as [|p ps IH]; intros init; cbn [fold_left map].
    - rewrite app_nil_r. reflexivity.
    - rewrite IH, <- app_assoc. reflexivity. }
  apply Hgen.
Qed.

Lemma map_insert_same {A B : Type} (f : A -> B) (l : list A) (i : nat) (x y : A) :
  l !! i = Some x -> f y = f x -> map f (<[i := y]> l) = map f l.
Proof.
  revert i. induction l as [|a l IH]; intros [|i] Hi Hf; try discriminate.
  - injection Hi as ->. simpl. rewrite Hf. reflexivity.
  - simpl. f_equal. apply IH; assumption.
Qed.

Lemma task_args_cancel (ts : list Task) :
  map task_args (map cancel ts) = map task_args ts.
Proof.
  rewrite map_map. apply map_ext. intros t. unfold cancel.
  destruct (done t); reflexivity.
Qed.

Section CohortFacts.

Variable loads : string -> Outcome PyVal.

(** No step of the loop adds, removes, merges or re-targets a task. *)
Lemma loop_step_args (c c' : Cohort) (ev : LoopEvent) :
  loop_step loads c ev = Some c' ->
  map task_args (tasks c') = map task_args (tasks c).
Proof.
  destruct ev as [i w|]; cbn [loop_step].
  - destruct (tasks c !! i) as [t|] eqn:Hi; [|discriminate].
    destruct (deliverable t w); [|discriminate].
    destruct (resume loads (task_args t) (task_state t) w) as [[st eff]|];
      [|discriminate].
    assert (Hins : map task_args (<[i := mkTask (task_args t) st false]> (tasks c))
                   = map task_args (tasks c)).
    { eapply map_insert_same; [exact Hi | reflexivity]. }
    destruct st; try (intros [= <-]; exact Hins).
    destruct (coord c); try (intros [= <-]; exact Hins).
    + unfold coordinator_except. destruct (caught_by e [CancelledError]);
        intros [= <-]; cbn [tasks]; [rewrite task_args_cancel|]; exact Hins.
  - destruct (coord c); try discriminate.
    + unfold coordinator_except. cbn [caught_by cancelled].
      intros [= <-]. cbn [tasks]. apply task_args_cancel.
    + intros [= <-]. cbn [tasks]. apply task_args_cancel.
Qed.

Lemma loop_run_args (evs : list LoopEvent) (c c' : Cohort) :
  loop_run loads c evs = Some c' ->
  map task_args (tasks c') = map task_args (tasks c).
Proof.
  revert c. induction evs as [|ev evs IH]; intros c; cbn [loop_run].
  - intros [= <-]. reflexivity.
  - destruct (loop_step loads c ev) as [c1|] eqn:Hstep; [|discriminate].
    intros Hrun. rewrite (IH _ Hrun). eapply loop_step_args. exact Hstep.
Qed.

(** Starting the tasks [todo], which follow the tasks [pre]. *)
Lemma start_from (todo pre : list Task) (co : CoordState) (tr : list (nat * Effect)) :
  Forall (fun t => task_state t = Created /\ must_cancel t = false) todo ->
  loop_run loads (mkCohort (pre ++ todo) co tr)
    (map (fun i => Wakeup i Resolved) (seq (length pre) (length todo)))
  = Some (mkCohort (pre ++ map started todo) co
            (tr ++ connects_from (length pre) todo)).
Proof.
  revert pre tr. induction todo as [|t rest IH]; intros pre tr Hall.
  - cbn. rewrite !app_nil_r. reflexivity.
  - inversion Hall as [|? ? [Hst Hmc] Hrest]; subst.
    cbn [length seq map loop_run]. unfold loop_step. cbn [tasks coord trace].
    rewrite list_lookup_middle by reflexivity.
    unfold deliverable. rewrite Hmc, Hst. cbn [resume].
    rewrite insert_app_r_alt by lia. rewrite Nat.sub_diag. cbn [insert list_insert].
    change (mkTask (task_args t) (Connecting (sa_backoff_initial (task_args t))) false)
      with (started t).
    cbn [map connects_from].
    specialize (IH (pre ++ [started t])%list
                  (tr ++ [(length pre, connect_call (task_args t))])%list Hrest).
    rewrite length_app in IH. cbn [length] in IH.
    rewrite Nat.add_1_r, <- !app_assoc in IH. exact IH.
Qed.

End CohortFacts.

Lemma connects_from_snd (i : nat) (ts : list Task) :
  map snd (connects_from i ts) = map (fun t => connect_call (task_args t)) ts.
Proof.
  revert i. induction ts as [|t ts IH]; intros i; [reflexivity|].
  cbn [connects_from map snd]. rewrite IH. reflexivity.
Qed.

(** C9: the coordinator creates one task per element of [event_paths], in
    order and without merging equal patterns, each with the same queue and
    connection settings; once started, all of them are connecting at the
    same time, each to the URL of its own pattern; and no step of the loop
    changes the number of tasks or what they subscribe to. *)
Theorem one_supervisor_per_pattern (loads : string -> Outcome PyVal)
    (queue : QueueRef) (vault_addr : string) (event_paths : list string)
    (headers : gmap string string) (ping_interval : Z) (verify_ssl : bool)
    (backoff_initial backoff_max : Q) (filter_expression : option string) :
  let mk := fun pattern =>
    mkSupervisorArgs queue vault_addr pattern headers ping_interval verify_ssl
      backoff_initial backoff_max filter_expression in
  let c := _stream_multiple_patterns queue vault_addr event_paths headers
             ping_interval verify_ssl backoff_initial backoff_max
             filter_expression in
  map task_args (tasks c) = map mk event_paths
  /\ length (tasks c) = length event_paths
  /\ Forall (fun t => sa_queue (task_args t) = queue) (tasks c)
  /\ (exists c',
        loop_run loads c (start_all (length event_paths)) = Some c'
        /\ map task_state (tasks c') = map (fun _ => Connecting backoff_initial) event_paths
        /\ Forall (fun t => done t = false) (tasks c')
        /\ map snd (trace c') = map (fun pattern => connect_call (mk pattern)) event_paths
        /\ coord c' = coord c)
  /\ (forall evs c',
        loop_run loads c evs = Some c' ->
        map task_args (tasks c') = map mk event_paths
        /\ length (tasks c') = length event_paths).
Proof.
  intros mk c.
  assert (Hts : tasks c = map (fun pattern => create_task (mk pattern)) event_paths).
  { unfold c, _stream_multiple_patterns. cbn [tasks]. apply spawn_map. }
  assert (Hargs : map task_args (tasks c) = map mk event_paths).
  { rewrite Hts, map_map. reflexivity. }
  assert (Hlen : length (tasks c) = length event_paths).
  { rewrite Hts, length_map. reflexivity. }
  split; [exact Hargs|]. split; [exact Hlen|]. split; [|split].
  - rewrite Hts. apply List.Forall_forall. intros t Ht.
    apply in_map_iff in Ht as (p & <- & _). reflexivity.
  - pose proof (start_from loads (tasks c) [] (coord c) []) as Hstart.
    cbn [app length] in Hstart. rewrite Hlen in Hstart.
    exists (mkCohort (map started (tasks c)) (coord c) (connects_from 0 (tasks c))).
    split; [|split; [|split; [|split]]].
    + unfold start_all. rewrite <- Hstart.
      * reflexivity.
      * rewrite Hts. apply List.Forall_forall. intros t Ht.
        apply in_map_iff in Ht as (p & <- & _). split; reflexivity.
    + cbn [tasks]. rewrite Hts, !map_map. reflexivity.
    + cbn [tasks]. apply List.Forall_forall. intros t Ht.
      apply in_map_iff in Ht as (t0 & <- & _). reflexivity.
    + cbn [trace]. rewrite connects_from_snd, Hts, map_map. reflexivity.
    + reflexivity.
  - intros evs c' Hrun. pose proof (loop_run_args loads evs c c' Hrun) as Hc'.
    rewrite Hargs in Hc'. split; [exact Hc'|].
    rewrite <- (length_map task_args), Hc', length_map. reflexivity.
Qed.

(** Two equal patterns give two supervisors. *)
Example duplicate_patterns_two_tasks :
  map (fun t => sa_event_pattern (task_args t))
    (tasks (_stream_multiple_patterns 0 "http://127.0.0.1:8200"
              ["kv-v2/*"; "kv-v2/*"] ∅ 20 true 1 30 None))
  = ["kv-v2/*"; "kv-v2/*"].
Proof. reflexivity. Qed.

Lemma done_cancel (t : Task) : done (cancel t) = done t.
Proof. unfold cancel. destruct (done t) eqn:H; [exact H | exact H]. Qed.

Lemma all_done_cancel (ts : list Task) : all_done (map cancel ts) = all_done ts.
Proof.
  unfold all_done. induction ts as [|t ts IH]; [reflexivity|].
  cbn [map forallb]. rewrite done_cancel, IH. reflexivity.
Qed.

Lemma cancel_flags (ts : list Task) :
  Forall (fun t => done t = true \/ must_cancel t = true) (map cancel ts).
Proof.
  apply List.Forall_forall. intros t Ht. apply in_map_iff in Ht as (t0 & <- & _).
  unfold cancel. destruct (done t0) eqn:H; [left; exact H | right; reflexivity].
Qed.

Lemma all_done_lookup (ts : list Task) (i : nat) (t : Task) :
  all_done ts = true -> ts !! i = Some t -> done t = true.
Proof.
  unfold all_done. revert i. induction ts as [|a ts IH]; intros [|i] H Hi;
    try discriminate; cbn [forallb] in H; apply andb_prop in H as [Ha Hts].
  - injection Hi as <-. exact Ha.
  - eapply IH; eassumption.
Qed.

Lemma all_done_app (l1 l2 : list Task) :
  all_done (l1 ++ l2) = all_done l1 && all_done l2.
Proof. unfold all_done. apply forallb_app. Qed.

Lemma all_done_Forall (ts : list Task) :
  Forall (fun t => done t = true) ts -> all_done ts = true.
Proof.
  unfold all_done. induction 1 as [|t ts Ht _ IH]; [reflexivity|].
  cbn [forallb]. rewrite Ht, IH. reflexivity.
Qed.

Section Cancellation.

Variable loads : string -> Outcome PyVal.

(** At every suspension point a thrown [CancelledError] ends the
    supervisor, with no further effect. *)
Lemma resume_cancelled (args : SupervisorArgs) (st : SupState) (e : Exn) :
  caught_by e [CancelledError] = true ->
  (forall e', st <> Finished e') ->
  resume loads args st (Thrown e) = Some (Finished e, []).
Proof.
  intros He Hst. destruct st; cbn [resume]; unfold on_exception; rewrite ?He;
    try reflexivity.
  exfalso. eapply Hst. reflexivity.
Qed.

Lemma not_done_state (t : Task) :
  done t = false -> forall e', task_state t <> Finished e'.
Proof. unfold done. intros H e' He. rewrite He in H. discriminate. Qed.

Lemma unwinding_step (c c' : Cohort) (ev : LoopEvent) :
  unwinding c -> loop_step loads c ev = Some c' ->
  unwinding c' /\ trace c' = trace c.
Proof.
  intros [Hflags Hco]. destruct ev as [i w|]; cbn [loop_step].
  - destruct (tasks c !! i) as [t|] eqn:Hi; [|discriminate].
    destruct (deliverable t w) eqn:Hdel; [|discriminate].
    destruct (done t) eqn:Hd.
    { unfold done in Hd. destruct (task_state t); discriminate. }
    assert (Hmc : must_cancel t = true).
    { rewrite List.Forall_forall in Hflags.
      destruct (Hflags t) as [H | H]; [| congruence | exact H].
      apply list_elem_of_In. eapply list_elem_of_lookup_2. exact Hi. }
    unfold deliverable in Hdel. rewrite Hmc in Hdel.
    destruct w as [| | |e1]; try discriminate.
    rewrite (resume_cancelled _ _ _ Hdel (not_done_state t Hd)).
    destruct Hco as [[Hc Hall] | [Hc Hall]].
    + rewrite Hc. intros [= <-]. cbn [tasks coord trace map].
      rewrite app_nil_r. split; [|reflexivity]. split.
      * apply Forall_insert; [exact Hflags | left; reflexivity].
      * cbn [tasks coord].
        destruct (all_done (<[i:=mkTask (task_args t) (Finished e1) false]> (tasks c)));
          [right | left]; split; reflexivity.
    + rewrite (all_done_lookup _ _ _ Hall Hi) in Hd. discriminate.
  - destruct Hco as [[Hc Hall] | [Hc Hall]]; rewrite Hc; [|discriminate].
    intros [= <-]. cbn [tasks coord trace]. split; [|reflexivity]. split.
    + apply cancel_flags.
    + left. cbn [tasks coord]. split; [reflexivity|].
      rewrite all_done_cancel. exact Hall.
Qed.

Lemma unwinding_run (evs : list LoopEvent) (c c' : Cohort) :
  unwinding c -> loop_run loads c evs = Some c' ->
  unwinding c' /\ trace c' = trace c.
Proof.
  revert c. induction evs as [|ev evs IH]; intros c Hc; cbn [loop_run].
  - intros [= <-]. split; [exact Hc | reflexivity].
  - destruct (loop_step loads c ev) as [c1|] eqn:Hstep; [|discriminate].
    destruct (unwinding_step c c1 ev Hc Hstep) as [Hc1 Htr1].
    intros Hrun. destruct (IH c1 Hc1 Hrun) as [Hc' Htr'].
    split; [exact Hc' | congruence].
Qed.

(** Delivering the pending cancellations finishes every task, and only
    then does the coordinator re-raise. *)
Lemma drain (todo pre : list Task) (tr : list (nat * Effect)) :
  Forall (fun t => done t = true) pre ->
  Forall (fun t => done t = true \/ must_cancel t = true) todo ->
  exists ts',
    loop_run loads
      (mkCohort (pre ++ todo)
         (if all_done (pre ++ todo) then CoordRaised cancelled
          else AwaitUnwind cancelled) tr)
      (deliver_cancels_from (length pre) todo)
    = Some (mkCohort ts' (CoordRaised cancelled) tr)
    /\ all_done ts' = true
    /\ length ts' = length (pre ++ todo).
Proof.
  revert pre. induction todo as [|t rest IH]; intros pre Hpre Htodo.
  - exists pre. rewrite app_nil_r, (all_done_Forall _ Hpre).
    repeat split; reflexivity.
  - inversion Htodo as [|? ? Ht Hrest]; subst.
    cbn [deliver_cancels_from]. destruct (done t) eqn:Hd.
    + destruct (IH (pre ++ [t])%list) as (ts' & Hrun & Hall & Hlen).
      { apply Forall_app. split; [exact Hpre | constructor; [exact Hd | constructor]]. }
      { exact Hrest. }
      rewrite length_app in Hrun. cbn [length] in Hrun.
      rewrite Nat.add_1_r, <- !app_assoc in Hrun. cbn [app] in Hrun.
      rewrite <- app_assoc in Hlen. cbn [app] in Hlen.
      exists ts'. repeat split; assumption.
    + destruct Ht as [Ht | Hmc]; [congruence|].
      set (t' := mkTask (task_args t) (Finished cancelled) false).
      destruct (IH (pre ++ [t'])%list) as (ts' & Hrun & Hall & Hlen).
      { apply Forall_app. split; [exact Hpre | constructor; [reflexivity | constructor]]. }
      { exact Hrest. }
      rewrite length_app in Hrun. cbn [length] in Hrun.
      rewrite Nat.add_1_r, <- !app_assoc in Hrun. cbn [app] in Hrun.
      rewrite <- app_assoc in Hlen. cbn [app] in Hlen.
      exists ts'. split; [|split; [exact Hall|]].
      * cbn [loop_run]. unfold loop_step. cbn [tasks coord trace].
        rewrite list_lookup_middle by reflexivity.
        unfold deliverable. rewrite Hmc.
        change (caught_by cancelled [CancelledError]) with true. cbn iota.
        rewrite (resume_cancelled _ _ cancelled eq_refl (not_done_state t Hd)).
        rewrite all_done_app. cbn [all_done forallb]. rewrite Hd, andb_false_r.
        rewrite insert_app_r_alt by lia. rewrite Nat.sub_diag.
        cbn [insert list_insert map]. rewrite app_nil_r.
        fold t'. exact Hrun.
      * rewrite Hlen, !length_app. reflexivity.
Qed.

End Cancellation.

(** C5: a coordinator cancelled at its first [await] cancels every task
    that is not done; from then on no task connects, sleeps or enqueues,
    and the coordinator has either not yet re-raised while some task is
    unfinished, or has re-raised the [CancelledError] with all tasks
    finished; throwing the pending cancellation into each task gets it
    there, with as many tasks as before. *)
Theorem coordinator_cancellation (loads : string -> Outcome PyVal) (c : Cohort) :
  coord c = AwaitGather ->
  exists c1,
    loop_step loads c CancelCoordinator = Some c1
    /\ map task_args (tasks c1) = map task_args (tasks c)
    /\ Forall (fun t => done t = true \/ must_cancel t = true) (tasks c1)
    /\ (forall evs c2,
          loop_run loads c1 evs = Some c2 ->
          length (tasks c2) = length (tasks c)
          /\ trace c2 = trace c
          /\ ((coord c2 = AwaitUnwind cancelled /\ all_done (tasks c2) = false)
              \/ (coord c2 = CoordRaised cancelled /\ all_done (tasks c2) = true)))
    /\ (exists c2,
          loop_run loads c1 (deliver_cancels (tasks c1)) = Some c2
          /\ coord c2 = CoordRaised cancelled
          /\ all_done (tasks c2) = true
          /\ length (tasks c2) = length (tasks c)).
Proof.
  intros Hco.
  set (c1 := mkCohort (map cancel (tasks c))
               (if all_done (map cancel (tasks c)) then CoordRaised cancelled
                else AwaitUnwind cancelled) (trace c)).
  assert (Hstep : loop_step loads c CancelCoordinator = Some c1).
  { cbn [loop_step]. rewrite Hco. reflexivity. }
  assert (Hunw : unwinding c1).
  { split; [apply cancel_flags|]. cbn [tasks coord c1].
    destruct (all_done (map cancel (tasks c))); [right | left]; split; reflexivity. }
  assert (Hlen : length (tasks c1) = length (tasks c)).
  { cbn [tasks c1]. apply length_map. }
  exists c1. split; [exact Hstep|]. split; [apply task_args_cancel|].
  split; [apply cancel_flags|]. split.
  - intros evs c2 Hrun.
    destruct (unwinding_run loads evs c1 c2 Hunw Hrun) as [[_ Hc2] Htr].
    split; [|split; [exact Htr | exact Hc2]].
    rewrite <- Hlen, <- (length_map task_args (tasks c2)),
      (loop_run_args loads evs c1 c2 Hrun), length_map. reflexivity.
  - destruct (drain loads (tasks c1) [] (trace c) (List.Forall_nil _) (cancel_flags (tasks c)))
      as (ts' & Hrun & Hall & Hlen').
    exists (mkCohort ts' (CoordRaised cancelled) (trace c)).
    split; [exact Hrun|]. split; [reflexivity|]. split; [exact Hall|].
    cbn [tasks]. rewrite Hlen'. exact Hlen.
Qed.

(** C5 at a cohort of three patterns. *)
Lemma coordinator_cancellation_witness :
  exists c1,
    loop_step Json.loads three_patterns CancelCoordinator = Some c1
    /\ map task_args (tasks c1) = map task_args (tasks three_patterns)
    /\ Forall (fun t => done t = true \/ must_cancel t = true) (tasks c1)
    /\ (forall evs c2,
          loop_run Json.loads c1 evs = Some c2 ->
          length (tasks c2) = length (tasks three_patterns)
          /\ trace c2 = trace three_patterns
          /\ ((coord c2 = AwaitUnwind cancelled /\ all_done (tasks c2) = false)
              \/ (coord c2 = CoordRaised cancelled /\ all_done (tasks c2) = true)))
    /\ (exists c2,
          loop_run Json.loads c1 (deliver_cancels (tasks c1)) = Some c2
          /\ coord c2 = CoordRaised cancelled
          /\ all_done (tasks c2) = true
          /\ length (tasks c2) = length (tasks three_patterns)).
Proof.
  apply (coordinator_cancellation Json.loads three_patterns). reflexivity.
Defined.

(** Three supervisors in three different states (streaming, sleeping
    after a failed attempt, connecting) are cancelled: with one
    cancellation delivered the coordinator still waits; with all three
    delivered every task is finished and the coordinator has re-raised. *)
Example three_patterns_shutdown :
  let busy := (start_all 3 ++
               [Wakeup 0 Resolved; Wakeup 0 (Message "{}");
                Wakeup 1 (Thrown (mkExn OSError "refused"))])%list in
  option_map (fun c => (map task_state (tasks c), coord c))
    (loop_run Json.loads three_patterns
       (busy ++ [CancelCoordinator; Wakeup 2 (Thrown cancelled)])%list)
  = Some ([Streaming 1; BackoffWait 1; Finished cancelled], AwaitUnwind cancelled)
  /\ option_map (fun c => (map task_state (tasks c), coord c))
       (loop_run Json.loads three_patterns
          (busy ++ [CancelCoordinator; Wakeup 2 (Thrown cancelled);
                    Wakeup 0 (Thrown cancelled); Wakeup 1 (Thrown cancelled)])%list)
     = Some ([Finished cancelled; Finished cancelled; Finished cancelled],
             CoordRaised cancelled)
  /\ loop_run Json.loads three_patterns
       (busy ++ [CancelCoordinator; Wakeup 0 (Message "{}")])%list = None.
Proof. repeat split; vm_compute; reflexivity. Qed.

(** The documented end-to-end run: one pattern, the connection is opened
    with the token header, and the frame is enqueued as decoded. *)
Example end_to_end :
  option_map trace
    (loop_run Json.loads
       (_stream_multiple_patterns 0 "http://127.0.0.1:8200" ["kv-v2/*"]
          {["X-Vault-Token" := "t"]} 20 true 1 30 None)
       [Wakeup 0 Resolved; Wakeup 0 Resolved;
        Wakeup 0 (Message ("{" +:+ dq +:+ "event_type" +:+ dq +:+ ":"
                           +:+ dq +:+ "kv-v2/data-write" +:+ dq +:+ "}"))])
  = Some [(0, Connect "ws://127.0.0.1:8200/v1/sys/events/subscribe/kv-v2/*?json=true"
                {["X-Vault-Token" := "t"]} 20 NoSsl);
          (0, QueuePut 0 (PyDict [("event_type", PyStr "kv-v2/data-write")]))].
Proof. vm_compute. reflexivity. Qed.

(** * Further properties *)

(** ** URL builder *)

Lemma string_app_assoc (a b c : string) : (a +:+ b) +:+ c = a +:+ b +:+ c.
Proof.
  induction a as [|x a IH]; [reflexivity|].
  change (String x ((a +:+ b) +:+ c) = String x (a +:+ b +:+ c)).
  rewrite IH. reflexivity.
Qed.

Lemma prefix_app_l (p s t : string) :
  String.prefix p s = true -> String.prefix p (s +:+ t) = true.
Proof.
  intros H. destruct (prefix_split _ _ H) as [r ->].
  rewrite string_app_assoc. apply prefix_app.
Qed.

(** Without an occurrence of the pattern [str.replace] changes nothing. *)
Lemma replace_from_absent (old new s : string) :
  PyStr.count_occ old s = 0 -> PyStr.replace_from old new 0 s = s.
Proof.
  induction s as [|c s IH]; [reflexivity|].
  cbn [PyStr.count_occ PyStr.replace_from].
  destruct (String.prefix old (String c s)); [discriminate|].
  intros H. rewrite IH by exact H. reflexivity.
Qed.

Lemma build_event_url_from_scheme (vault_addr event_pattern : string)
    (filter_expression : option string) :
  exists rest,
    _build_event_url vault_addr event_pattern filter_expression
    = ws_scheme vault_addr +:+ rest.
Proof.
  unfold _build_event_url.
  destruct filter_expression as [[|c f]|]; cbn [truthy_opt_str]; cbv zeta.
  - eexists. reflexivity.
  - eexists. rewrite string_app_assoc. reflexivity.
  - eexists. reflexivity.
Qed.

Lemma ws_scheme_http_eq (vault_addr : string) :
  PyStr.startswith vault_addr "http://" = true ->
  exists rest, ws_scheme vault_addr = "ws://" +:+ rest.
Proof.
  intros H. unfold ws_scheme, PyStr.startswith in *.
  destruct (prefix_split _ _ H) as [r ->].
  replace (String.prefix "https://" ("http://" +:+ r)) with false
    by (vm_compute; reflexivity).
  unfold PyStr.replace. cbn [String.append] in *.
  rewrite (replace_from_match _ _ _ _ H). eexists. reflexivity.
Qed.

(** X1: the builder validates nothing.  An address in which [http://]
    does not occur and which does not start with [https://] (one that
    is already [ws://] or [wss://], or one written in upper case) is
    used as it is, with the subscription path behind it. *)
Theorem build_event_url_passthrough (vault_addr event_pattern : string) :
  PyStr.count_occ "http://" vault_addr = 0 ->
  PyStr.startswith vault_addr "https://" = false ->
  ws_scheme vault_addr = vault_addr
  /\ _build_event_url vault_addr event_pattern None
     = vault_addr +:+ "/v1/sys/events/subscribe/" +:+ event_pattern +:+ "?json=true".
Proof.
  intros Hocc Hs.
  assert (Hws : ws_scheme vault_addr = vault_addr).
  { unfold ws_scheme. rewrite Hs. unfold PyStr.replace.
    apply replace_from_absent. exact Hocc. }
  split; [exact Hws|]. unfold _build_event_url. rewrite Hws. reflexivity.
Qed.

(** X1 at an address whose scheme is written in upper case. *)
Lemma build_event_url_passthrough_witness :
  ws_scheme "HTTPS://vault.example.com:8200" = "HTTPS://vault.example.com:8200"
  /\ _build_event_url "HTTPS://vault.example.com:8200" "kv-v2/*" None
     = "HTTPS://vault.example.com:8200" +:+ "/v1/sys/events/subscribe/" +:+ "kv-v2/*"
         +:+ "?json=true".
Proof.
  apply (build_event_url_passthrough "HTTPS://vault.example.com:8200" "kv-v2/*");
    vm_compute; reflexivity.
Defined.

(** X2: for an address made of the scheme and a remainder in which the
    scheme string does not occur again, only the scheme is translated:
    [https://r] becomes [wss://r], [http://r] becomes [ws://r], and the
    remainder is kept character by character. *)
Theorem build_event_url_scheme_only (r event_pattern : string) :
  (PyStr.count_occ "https://" r = 0 ->
   _build_event_url ("https://" +:+ r) event_pattern None
   = "wss://" +:+ r +:+ "/v1/sys/events/subscribe/" +:+ event_pattern +:+ "?json=true")
  /\ (PyStr.count_occ "http://" r = 0 ->
      _build_event_url ("http://" +:+ r) event_pattern None
      = "ws://" +:+ r +:+ "/v1/sys/events/subscribe/" +:+ event_pattern +:+ "?json=true").
Proof.
  split; intros Hocc.
  - assert (Hws : ws_scheme ("https://" +:+ r) = "wss://" +:+ r).
    { pose proof (prefix_app "https://" r) as H.
      unfold ws_scheme, PyStr.startswith. rewrite H.
      unfold PyStr.replace. cbn [String.append] in *.
      rewrite (replace_from_match _ _ _ _ H).
      cbn [String.length Nat.sub PyStr.replace_from].
      rewrite (replace_from_absent _ _ _ Hocc). reflexivity. }
    unfold _build_event_url. rewrite Hws, !string_app_assoc. reflexivity.
  - assert (Hws : ws_scheme ("http://" +:+ r) = "ws://" +:+ r).
    { pose proof (prefix_app "http://" r) as H.
      unfold ws_scheme, PyStr.startswith.
      replace (String.prefix "https://" ("http://" +:+ r)) with false
        by (vm_compute; reflexivity).
      unfold PyStr.replace. cbn [String.append] in *.
      rewrite (replace_from_match _ _ _ _ H).
      cbn [String.length Nat.sub PyStr.replace_from].
      rewrite (replace_from_absent _ _ _ Hocc). reflexivity. }
    unfold _build_event_url. rewrite Hws, !string_app_assoc. reflexivity.
Qed.

(** X2 at the two documented addresses. *)
Lemma build_event_url_scheme_only_witness :
  _build_event_url ("https://" +:+ "localhost:8200") "kv-v2/*" None
  = "wss://" +:+ "localhost:8200" +:+ "/v1/sys/events/subscribe/" +:+ "kv-v2/*"
      +:+ "?json=true"
  /\ _build_event_url ("http://" +:+ "127.0.0.1:8200") "database/*" None
     = "ws://" +:+ "127.0.0.1:8200" +:+ "/v1/sys/events/subscribe/" +:+ "database/*"
         +:+ "?json=true".
Proof.
  split.
  - apply (proj1 (build_event_url_scheme_only "localhost:8200" "kv-v2/*")).
    vm_compute. reflexivity.
  - apply (proj2 (build_event_url_scheme_only "127.0.0.1:8200" "database/*")).
    vm_compute. reflexivity.
Defined.

(** ** Connection supervisor *)

(** X3: the TLS context follows the scheme of the address.  For an
    [https://] address a context is always made, verifying unless
    [verify_ssl] is false; for an [http://] address there is none,
    whatever [verify_ssl] says. *)
Theorem ssl_ctx_by_scheme (args : SupervisorArgs) :
  (PyStr.startswith (sa_vault_addr args) "https://" = true ->
   ssl_ctx args = if sa_verify_ssl args then SslDefault else SslUnverified)
  /\ (PyStr.startswith (sa_vault_addr args) "http://" = true ->
      ssl_ctx args = NoSsl).
Proof.
  unfold ssl_ctx, supervisor_url.
  destruct (build_event_url_from_scheme (sa_vault_addr args) (sa_event_pattern args)
              (sa_filter_expression args)) as [rest ->].
  split; intros H.
  - pose proof (ws_scheme_https _ H) as Hw. unfold PyStr.startswith in *.
    rewrite (prefix_app_l _ _ rest Hw). destruct (sa_verify_ssl args); reflexivity.
  - destruct (ws_scheme_http_eq _ H) as [x ->]. unfold PyStr.startswith.
    replace (String.prefix "wss://" (("ws://" +:+ x) +:+ rest)) with false
      by (vm_compute; reflexivity).
    reflexivity.
Qed.

(** X3 at a TLS address without verification and at a plain address. *)
Lemma ssl_ctx_by_scheme_witness :
  ssl_ctx tls_args = (if sa_verify_ssl tls_args then SslDefault else SslUnverified)
  /\ ssl_ctx example_args = NoSsl.
Proof.
  split.
  - apply (proj1 (ssl_ctx_by_scheme tls_args)). vm_compute. reflexivity.
  - apply (proj2 (ssl_ctx_by_scheme example_args)). vm_compute. reflexivity.
Defined.

(** X4: frames are never dropped or reordered.  For any frames each of
    which the handler turns into an event (the decoded object, or the
    record of a decode failure), the streaming supervisor enqueues exactly
    one event per frame, in the order of arrival, does nothing else, and
    keeps streaming. *)
Theorem frames_enqueued_in_order (loads : string -> Outcome PyVal)
    (args : SupervisorArgs) (b : Q) (msgs : list string) (events : list PyVal) :
  Forall2 (fun msg event => decode_message loads args msg = Ok event) msgs events ->
  run loads args (Streaming b) (map Message msgs)
  = Some (Streaming b, map (QueuePut (sa_queue args)) events).
Proof.
  induction 1 as [|msg event msgs events Hm _ IH]; [reflexivity|].
  cbn [map run resume]. rewrite Hm, IH. reflexivity.
Qed.

(** X4 at an object, a truncated frame and another object. *)
Lemma frames_enqueued_in_order_witness :
  run Json.loads example_args (Streaming 1)
    (map Message ["{}"; "{bad"; "{ }"])
  = Some (Streaming 1,
          map (QueuePut (sa_queue example_args))
            [PyDict []; json_decode_failed "kv-v2/*" "{bad"; PyDict []]).
Proof.
  apply (frames_enqueued_in_order Json.loads example_args 1).
  repeat constructor.
Defined.

(** X5: a decoder error other than [JSONDecodeError] that is a
    [UnicodeDecodeError], a [ValueError] or a [TypeError] is degraded as
    well: one record with the raw frame, the text of the exception as
    error and the pattern; the supervisor keeps streaming. *)
Theorem parse_error_degrades (loads : string -> Outcome PyVal)
    (args : SupervisorArgs) (b : Q) (msg : string) (e : Exn) :
  loads msg = Raise e ->
  exn_class e = UnicodeDecodeError \/ exn_class e = ValueError
  \/ exn_class e = TypeError ->
  resume loads args (Streaming b) (Message msg)
  = Some (Streaming b,
          [QueuePut (sa_queue args) (parse_failed (sa_event_pattern args) msg e)]).
Proof.
  intros Hload Hclass. cbn [resume]. unfold decode_message, try_decode.
  rewrite Hload. unfold caught_by. cbn [existsb].
  destruct Hclass as [H | [H | H]]; rewrite H; reflexivity.
Qed.

(** X5 at a decoder that refuses an over-long integer. *)
Lemma parse_error_degrades_witness :
  resume digit_limit_loads example_args (Streaming 1) (Message "1234")
  = Some (Streaming 1,
          [QueuePut (sa_queue example_args)
             (parse_failed (sa_event_pattern example_args) "1234"
                (mkExn ValueError
                   "Exceeds the limit (4300 digits) for integer string conversion"))]).
Proof.
  apply (parse_error_degrades digit_limit_loads example_args 1 "1234").
  - reflexivity.
  - right. left. reflexivity.
Defined.

(** The same with the decoder of the interpreter: an integer of 4301
    digits is refused by [int] and the frame is enqueued as a record. *)
Example digit_limit_frame_degrades :
  resume Json.loads example_args (Streaming 1) (Message (ones 4301))
  = Some (Streaming 1,
          [QueuePut (sa_queue example_args)
             (parse_failed (sa_event_pattern example_args) (ones 4301)
                (Json.digits_error 4300 4301))]).
Proof. vm_compute. reflexivity. Qed.

(** X6: a connection that the peer closes cleanly is reopened at once.
    Through any number of such connections the supervisor never sleeps:
    its effects are the connection requests alone, and its delay is back
    at the initial value. *)
Theorem clean_close_reconnects_without_delay (loads : string -> Outcome PyVal)
    (args : SupervisorArgs) (b : Q) (n : nat) :
  run loads args (Connecting b) (clean_cycles n)
  = Some (Connecting (match n with O => b | S _ => sa_backoff_initial args end),
          repeat (connect_call args) n)
  /\ sleeps (repeat (connect_call args) n) = [].
Proof.
  split.
  - revert b. induction n as [|n IH]; intros b; [reflexivity|].
    cbn [clean_cycles run resume]. rewrite IH. destruct n; reflexivity.
  - induction n as [|n IH]; [reflexivity | exact IH].
Qed.

Lemma py_min_in_bounds (a : SupervisorArgs) (b : Q) :
  (0 < sa_backoff_initial a)%Q ->
  (sa_backoff_initial a <= sa_backoff_max a)%Q ->
  in_bounds (sa_backoff_initial a) (sa_backoff_max a) b ->
  in_bounds (sa_backoff_initial a) (sa_backoff_max a)
    (py_min (b * 2) (sa_backoff_max a)).
Proof.
  unfold in_bounds, py_min. intros Hpos Hle [Hlo Hhi].
  destruct (Qcompare_spec (sa_backoff_max a) (b * 2)) as [H | H | H]; split; lra.
Qed.

(** One resumption keeps the delay within its bounds and sleeps only for
    a delay within them. *)
Lemma resume_backoff_ok (loads : string -> Outcome PyVal) (a : SupervisorArgs)
    (st st' : SupState) (w : Wake) (eff : list Effect) :
  (0 < sa_backoff_initial a)%Q ->
  (sa_backoff_initial a <= sa_backoff_max a)%Q ->
  backoff_ok a st ->
  resume loads a st w = Some (st', eff) ->
  backoff_ok a st'
  /\ Forall (in_bounds (sa_backoff_initial a) (sa_backoff_max a)) (sleeps eff).
Proof.
  intros Hpos Hle Hst Hres.
  assert (Hinit : in_bounds (sa_backoff_initial a) (sa_backoff_max a)
                    (sa_backoff_initial a)).
  { split; [apply Qle_refl | exact Hle]. }
  assert (Hexc : forall b e st1 eff1,
            in_bounds (sa_backoff_initial a) (sa_backoff_max a) b ->
            on_exception b e = (st1, eff1) ->
            backoff_ok a st1
            /\ Forall (in_bounds (sa_backoff_initial a) (sa_backoff_max a))
                 (sleeps eff1)).
  { intros b e st1 eff1 Hb. unfold on_exception.
    destruct (caught_by e [CancelledError]);
      [|destruct (caught_by e [ConnectionClosed; WebSocketException; OSError; SSLError])];
      intros [= <- <-]; cbn [backoff_ok sleeps flat_map app];
      (split; [first [exact I | exact Hb]
              | first [apply List.Forall_nil
                      | apply List.Forall_cons; [exact Hb | apply List.Forall_nil]]]). }
  destruct st as [|b|b|b|e0]; destruct w as [| msg | |e]; cbn [resume] in Hres;
    try discriminate.
  - injection Hres as <- <-. split; [exact Hinit | constructor].
  - injection Hres as <- <-. split; [exact I | constructor].
  - injection Hres as <- <-. split; [exact Hinit | constructor].
  - injection Hres as Hres. exact (Hexc b _ st' eff Hst Hres).
  - destruct (decode_message loads a msg) as [event | e].
    + injection Hres as <- <-. split; [exact Hst | constructor].
    + injection Hres as Hres. exact (Hexc b _ st' eff Hst Hres).
  - injection Hres as <- <-. split; [exact Hst | constructor].
  - injection Hres as Hres. exact (Hexc b _ st' eff Hst Hres).
  - injection Hres as <- <-.
    split; [apply py_min_in_bounds; assumption | constructor].
  - injection Hres as <- <-. split; [exact I | constructor].
Qed.

Lemma run_backoff_ok (loads : string -> Outcome PyVal) (a : SupervisorArgs)
    (wakes : list Wake) :
  (0 < sa_backoff_initial a)%Q ->
  (sa_backoff_initial a <= sa_backoff_max a)%Q ->
  forall st st' effs,
    backoff_ok a st ->
    run loads a st wakes = Some (st', effs) ->
    backoff_ok a st'
    /\ Forall (in_bounds (sa_backoff_initial a) (sa_backoff_max a)) (sleeps effs).
Proof.
  intros Hpos Hle. induction wakes as [|w wakes IH]; intros st st' effs Hst Hrun.
  - injection Hrun as <- <-. split; [exact Hst | constructor].
  - cbn [run] in Hrun.
    destruct (resume loads a st w) as [[st1 eff1]|] eqn:Hres; [|discriminate].
    destruct (run loads a st1 wakes) as [[st2 eff2]|] eqn:Hrest; [|discriminate].
    injection Hrun as <- <-.
    destruct (resume_backoff_ok loads a st st1 w eff1 Hpos Hle Hst Hres) as [Hst1 Hs1].
    destruct (IH st1 st2 eff2 Hst1 Hrest) as [Hst2 Hs2].
    split; [exact Hst2|]. rewrite sleeps_app. apply Forall_app. split; assumption.
Qed.

(** X7: with [0 < initial <= max], whatever happens to the supervisor
    (connections that succeed, fail or drop, in any order and number),
    every delay it sleeps for lies between [initial] and [max]. *)
Theorem backoff_always_bounded (loads : string -> Outcome PyVal)
    (args : SupervisorArgs) (wakes : list Wake) (st : SupState) (effs : list Effect) :
  (0 < sa_backoff_initial args)%Q ->
  (sa_backoff_initial args <= sa_backoff_max args)%Q ->
  _stream_single_pattern loads args wakes = Some (st, effs) ->
  Forall (in_bounds (sa_backoff_initial args) (sa_backoff_max args)) (sleeps effs).
Proof.
  intros Hpos Hle Hrun.
  eapply (run_backoff_ok loads args wakes Hpos Hle Created st effs I Hrun).
Qed.

(** X7 at a run with a failure, a dropped connection and a clean close. *)
Lemma backoff_always_bounded_witness :
  Forall (in_bounds (sa_backoff_initial example_args) (sa_backoff_max example_args))
    (sleeps [connect_call example_args; Sleep 1; connect_call example_args;
             QueuePut 0 (PyDict []); Sleep 1; connect_call example_args;
             connect_call example_args]).
Proof.
  apply (backoff_always_bounded Json.loads example_args
           [Resolved; Thrown (mkExn OSError "refused"); Resolved; Resolved;
            Message "{}"; Thrown (mkExn ConnectionClosed "1006"); Resolved;
            Resolved; Exhausted]
           (Connecting 1)).
  - unfold Qlt. simpl. lia.
  - unfold Qle. simpl. lia.
  - vm_compute. reflexivity.
Defined.

(** One resumption produces only effects of its own supervisor. *)
Lemma resume_effects (loads : string -> Outcome PyVal) (a : SupervisorArgs)
    (st st' : SupState) (w : Wake) (eff : list Effect) :
  resume loads a st w = Some (st', eff) -> Forall (effect_of a) eff.
Proof.
  assert (Hexc : forall b e st1 eff1,
            on_exception b e = (st1, eff1) -> Forall (effect_of a) eff1).
  { intros b e st1 eff1. unfold on_exception.
    destruct (caught_by e [CancelledError]);
      [|destruct (caught_by e [ConnectionClosed; WebSocketException; OSError; SSLError])];
      intros [= <- <-]; repeat (apply List.Forall_cons || apply List.Forall_nil);
      exact I. }
  destruct st as [|b|b|b|e0]; destruct w as [| msg | |e]; cbn [resume];
    try discriminate;
    try (intros [= <- <-];
         repeat (apply List.Forall_cons || apply List.Forall_nil); reflexivity);
    try (intros [= Hres]; exact (Hexc _ _ _ _ Hres)).
  destruct (decode_message loads a msg) as [event | e].
  - intros [= <- <-]. repeat (apply List.Forall_cons || apply List.Forall_nil).
    reflexivity.
  - intros [= Hres]. exact (Hexc _ _ _ _ Hres).
Qed.

(** X8: in every run of a supervisor, from any state, each connection
    request is the same one (the URL built from its address, pattern and
    filter, its headers, its ping interval, its TLS context) and each
    event goes to its own queue. *)
Theorem supervisor_effects_discipline (loads : string -> Outcome PyVal)
    (args : SupervisorArgs) (wakes : list Wake) (st st' : SupState)
    (effs : list Effect) :
  run loads args st wakes = Some (st', effs) ->
  Forall (effect_of args) effs.
Proof.
  revert st st' effs. induction wakes as [|w wakes IH]; intros st st' effs Hrun.
  - injection Hrun as <- <-. constructor.
  - cbn [run] in Hrun.
    destruct (resume loads args st w) as [[st1 eff1]|] eqn:Hres; [|discriminate].
    destruct (run loads args st1 wakes) as [[st2 eff2]|] eqn:Hrest; [|discriminate].
    injection Hrun as <- <-. apply Forall_app. split.
    + eapply resume_effects. exact Hres.
    + eapply IH. exact Hrest.
Qed.

(** X8 at a run that connects three times and enqueues twice. *)
Lemma supervisor_effects_discipline_witness :
  Forall (effect_of example_args)
    [connect_call example_args; QueuePut 0 (PyDict []);
     QueuePut 0 (json_decode_failed "kv-v2/*" "{bad"); connect_call example_args;
     Sleep 1; connect_call example_args].
Proof.
  apply (supervisor_effects_discipline Json.loads example_args
           [Resolved; Resolved; Message "{}"; Message "{bad"; Exhausted;
            Thrown (mkExn OSError "refused"); Resolved]
           Created (Connecting 2)).
  vm_compute. reflexivity.
Defined.

(** X9: cancellation is final at every suspension point.  A supervisor
    that has not finished and gets a [CancelledError] (while connecting,
    streaming, sleeping, or before it started) finishes with that
    exception without another effect, and nothing can resume it. *)
Theorem cancellation_is_final (loads : string -> Outcome PyVal)
    (args : SupervisorArgs) (st : SupState) (e : Exn) (rest : list Wake) :
  is_finished st = false ->
  exn_class e = CancelledError ->
  run loads args st (Thrown e :: rest)
  = match rest with
    | [] => Some (Finished e, [])
    | _ :: _ => None
    end.
Proof.
  intros Hst He.
  assert (Hc : caught_by e [CancelledError] = true).
  { unfold caught_by. cbn [existsb]. rewrite He. reflexivity. }
  assert (Hres : resume loads args st (Thrown e) = Some (Finished e, [])).
  { apply resume_cancelled; [exact Hc|]. intros e' ->. discriminate. }
  cbn [run]. rewrite Hres. destruct rest as [|w rest]; [reflexivity|].
  cbn [run]. rewrite finished_is_final. reflexivity.
Qed.

(** X9 at a supervisor cancelled during its back-off sleep. *)
Lemma cancellation_is_final_witness :
  run Json.loads example_args (BackoffWait 4) [Thrown cancelled; Resolved] = None
  /\ run Json.loads example_args (BackoffWait 4) [Thrown cancelled]
     = Some (Finished cancelled, []).
Proof.
  split.
  - apply (cancellation_is_final Json.loads example_args (BackoffWait 4) cancelled
             [Resolved]); reflexivity.
  - apply (cancellation_is_final Json.loads example_args (BackoffWait 4) cancelled []);
      reflexivity.
Defined.

(** ** Fan-out coordinator *)

Lemma lookup_map {A B : Type} (f : A -> B) (l : list A) (i : nat) (x : A) :
  l !! i = Some x -> map f l !! i = Some (f x).
Proof.
  revert i. induction l as [|a l IH]; intros [|i] H; try discriminate.
  - injection H as ->. reflexivity.
  - apply (IH i H).
Qed.

Lemma lookup_map_inv {A B : Type} (f : A -> B) (l : list A) (i : nat) (y : B) :
  map f l !! i = Some y -> exists x, l !! i = Some x /\ y = f x.
Proof.
  revert i. induction l as [|a l IH]; intros [|i] H; try discriminate.
  - injection H as <-. exists a. split; reflexivity.
  - apply (IH i H).
Qed.

(** X10: a connection failure stays inside its supervisor.  When the
    task of one pattern, connecting or streaming, gets a connection
    error, it goes to its back-off sleep; the coordinator does not
    notice, and every other task is exactly as it was. *)
Theorem connection_failure_is_isolated (loads : string -> Outcome PyVal)
    (c : Cohort) (i : nat) (t : Task) (b : Q) (e : Exn) :
  tasks c !! i = Some t ->
  must_cancel t = false ->
  task_state t = Connecting b \/ task_state t = Streaming b ->
  connection_error e = true ->
  exists c',
    loop_step loads c (Wakeup i (Thrown e)) = Some c'
    /\ coord c' = coord c
    /\ trace c' = (trace c ++ [(i, Sleep b)])%list
    /\ tasks c' !! i = Some (mkTask (task_args t) (BackoffWait b) false)
    /\ forall j, j <> i -> tasks c' !! j = tasks c !! j.
Proof.
  intros Hi Hmc Hst He.
  exists (mkCohort (<[i := mkTask (task_args t) (BackoffWait b) false]> (tasks c))
            (coord c) (trace c ++ [(i, Sleep b)])%list).
  split; [|split; [reflexivity | split; [reflexivity | split]]].
  - cbn [loop_step]. rewrite Hi. unfold deliverable. rewrite Hmc.
    destruct Hst as [-> | ->]; cbn [resume];
      rewrite (on_exception_connection_error b e He); reflexivity.
  - cbn [tasks]. apply list_lookup_insert_eq. eapply lookup_lt_Some. exact Hi.
  - intros j Hj. cbn [tasks]. apply list_lookup_insert_ne. congruence.
Qed.

(** X10 at the second of three running tasks. *)
Lemma connection_failure_is_isolated_witness :
  exists c',
    loop_step Json.loads three_running (Wakeup 1 (Thrown (mkExn OSError "refused")))
    = Some c'
    /\ coord c' = coord three_running
    /\ trace c' = (trace three_running ++ [(1, Sleep 1)])%list
    /\ tasks c' !! 1
       = Some (mkTask (mkSupervisorArgs 0 "http://127.0.0.1:8200" "database/*"
                         {["X-Vault-Token" := "t"]} 20 true 1 30 None)
                 (BackoffWait 1) false)
    /\ forall j, j <> 1 -> tasks c' !! j = tasks three_running !! j.
Proof.
  apply (connection_failure_is_isolated Json.loads three_running 1
           (mkTask (mkSupervisorArgs 0 "http://127.0.0.1:8200" "database/*"
                      {["X-Vault-Token" := "t"]} 20 true 1 30 None)
              (Connecting 1) false)
           1 (mkExn OSError "refused")).
  - reflexivity.
  - reflexivity.
  - left. reflexivity.
  - reflexivity.
Defined.



(** X12: the cancellation of a single supervisor task shuts the whole
    cohort down.  The coordinator's first [gather] raises the
    [CancelledError] of that task, the handler takes it for a shutdown
    and cancels every other task: afterwards each task is done or has
    its cancellation pending. *)
Theorem child_cancellation_shuts_down_cohort (loads : string -> Outcome PyVal)
    (c : Cohort) (i : nat) (t : Task) :
  coord c = AwaitGather ->
  tasks c !! i = Some t ->
  done t = false ->
  exists c',
    loop_step loads c (Wakeup i (Thrown cancelled)) = Some c'
    /\ Forall (fun t' => done t' = true \/ must_cancel t' = true) (tasks c')
    /\ (coord c' = AwaitUnwind cancelled \/ coord c' = CoordRaised cancelled)
    /\ map task_args (tasks c') = map task_args (tasks c).
Proof.
  intros Hco Hi Hd.
  set (ts := <[i := mkTask (task_args t) (Finished cancelled) false]> (tasks c)).
  exists (mkCohort (map cancel ts)
            (if all_done (map cancel ts) then CoordRaised cancelled
             else AwaitUnwind cancelled) (trace c ++ [])%list).
  split; [|split; [apply cancel_flags | split]].
  - cbn [loop_step]. rewrite Hi.
    assert (Hdel : deliverable t (Thrown cancelled) = true).
    { unfold deliverable. destruct (must_cancel t); reflexivity. }
    rewrite Hdel.
    rewrite (resume_cancelled loads _ _ cancelled eq_refl (not_done_state t Hd)).
    rewrite Hco. reflexivity.
  - cbn [coord]. destruct (all_done (map cancel ts)); [right | left]; reflexivity.
  - cbn [tasks]. rewrite task_args_cancel. unfold ts.
    eapply map_insert_same; [exact Hi | reflexivity].
Qed.

(** X12 at three running tasks, the last of which is cancelled. *)
Lemma child_cancellation_shuts_down_cohort_witness :
  exists c',
    loop_step Json.loads three_running (Wakeup 2 (Thrown cancelled)) = Some c'
    /\ Forall (fun t' => done t' = true \/ must_cancel t' = true) (tasks c')
    /\ (coord c' = AwaitUnwind cancelled \/ coord c' = CoordRaised cancelled)
    /\ map task_args (tasks c') = map task_args (tasks three_running).
Proof.
  apply (child_cancellation_shuts_down_cohort Json.loads three_running 2
           (mkTask (mkSupervisorArgs 0 "http://127.0.0.1:8200" "kv-v1/*"
                      {["X-Vault-Token" := "t"]} 20 true 1 30 None)
              (Connecting 1) false));
    reflexivity.
Defined.

Section CohortInvariants.

Variable loads : string -> Outcome PyVal.

Lemma finished_step (c c' : Cohort) (ev : LoopEvent) (i : nat) (t : Task) (e : Exn) :
  loop_step loads c ev = Some c' ->
  tasks c !! i = Some t -> task_state t = Finished e ->
  exists t', tasks c' !! i = Some t' /\ task_state t' = Finished e.
Proof.
  intros Hstep Hi Hst.
  assert (Hcancel : forall ts, ts !! i = Some t ->
            exists t', map cancel ts !! i = Some t' /\ task_state t' = Finished e).
  { intros ts Hts. exists t. split; [|exact Hst].
    rewrite (lookup_map cancel ts i t Hts). unfold cancel, done. rewrite Hst.
    reflexivity. }
  destruct ev as [j w|]; cbn [loop_step] in Hstep.
  - destruct (tasks c !! j) as [tj|] eqn:Hj; [|discriminate].
    destruct (deliverable tj w); [|discriminate].
    destruct (resume loads (task_args tj) (task_state tj) w) as [[st eff]|] eqn:Hres;
      [|discriminate].
    assert (Hne : j <> i).
    { intros ->. rewrite Hi in Hj. injection Hj as <-.
      rewrite Hst, finished_is_final in Hres. discriminate. }
    assert (Hins : <[j := mkTask (task_args tj) st false]> (tasks c) !! i = Some t).
    { rewrite list_lookup_insert_ne by exact Hne. exact Hi. }
    destruct st; try (injection Hstep as <-; exists t; split; [exact Hins | exact Hst]).
    destruct (coord c); try (injection Hstep as <-; exists t; split; [exact Hins | exact Hst]).
    unfold coordinator_except in Hstep. destruct (caught_by e0 [CancelledError]);
      injection Hstep as <-; cbn [tasks].
    + apply Hcancel. exact Hins.
    + exists t. split; [exact Hins | exact Hst].
  - destruct (coord c); try discriminate.
    + unfold coordinator_except in Hstep. cbn [caught_by cancelled] in Hstep.
      injection Hstep as <-. cbn [tasks]. apply Hcancel. exact Hi.
    + injection Hstep as <-. cbn [tasks]. apply Hcancel. exact Hi.
Qed.

(** The entries of the trace stay effects of the tasks they are numbered
    with. *)
Lemma entries_step (c c' : Cohort) (ev : LoopEvent) :
  loop_step loads c ev = Some c' ->
  Forall (entry_of (map task_args (tasks c))) (trace c) ->
  Forall (entry_of (map task_args (tasks c))) (trace c').
Proof.
  intros Hstep Htr. destruct ev as [i w|]; cbn [loop_step] in Hstep.
  - destruct (tasks c !! i) as [t|] eqn:Hi; [|discriminate].
    destruct (deliverable t w); [|discriminate].
    destruct (resume loads (task_args t) (task_state t) w) as [[st eff]|] eqn:Hres;
      [|discriminate].
    assert (Hnew : Forall (entry_of (map task_args (tasks c)))
                     (trace c ++ map (pair i) eff)%list).
    { apply Forall_app. split; [exact Htr|].
      pose proof (resume_effects loads _ _ _ _ _ Hres) as Heff.
      assert (Hmap : forall l, Forall (effect_of (task_args t)) l ->
                Forall (entry_of (map task_args (tasks c))) (map (pair i) l)).
      { induction 1 as [|x l Hx _ IH]; [constructor|].
        cbn [map]. constructor; [|exact IH].
        exists (task_args t). split; [|exact Hx].
        cbn [fst]. apply lookup_map. exact Hi. }
      apply Hmap. exact Heff. }
    destruct st; try (injection Hstep as <-; exact Hnew).
    destruct (coord c); try (injection Hstep as <-; exact Hnew).
    unfold coordinator_except in Hstep. destruct (caught_by e [CancelledError]);
      injection Hstep as <-; exact Hnew.
  - destruct (coord c); try discriminate.
    + unfold coordinator_except in Hstep. cbn [caught_by cancelled] in Hstep.
      injection Hstep as <-. exact Htr.
    + injection Hstep as <-. exact Htr.
Qed.

Lemma entries_run (evs : list LoopEvent) (c c' : Cohort) :
  loop_run loads c evs = Some c' ->
  Forall (entry_of (map task_args (tasks c))) (trace c) ->
  Forall (entry_of (map task_args (tasks c))) (trace c').
Proof.
  revert c. induction evs as [|ev evs IH]; intros c; cbn [loop_run].
  - intros [= <-] H. exact H.
  - destruct (loop_step loads c ev) as [c1|] eqn:Hstep; [|discriminate].
    intros Hrun Htr. rewrite <- (loop_step_args loads c c1 ev Hstep).
    apply (IH c1 Hrun). rewrite (loop_step_args loads c c1 ev Hstep).
    eapply entries_step; eassumption.
Qed.

End CohortInvariants.

(** X13: a supervisor that has finished is never restarted.  Whatever
    the event loop does afterwards, the task of that pattern stays
    finished with the same exception: nothing reconnects it and the
    coordinator creates no replacement. *)
Theorem finished_supervisor_stays_finished (loads : string -> Outcome PyVal)
    (evs : list LoopEvent) (c c' : Cohort) (i : nat) (t : Task) (e : Exn) :
  loop_run loads c evs = Some c' ->
  tasks c !! i = Some t ->
  task_state t = Finished e ->
  length (tasks c') = length (tasks c)
  /\ exists t', tasks c' !! i = Some t' /\ task_state t' = Finished e.
Proof.
  intros Hrun Hi Hst. split.
  - rewrite <- (length_map task_args (tasks c')),
      (loop_run_args loads evs c c' Hrun), length_map. reflexivity.
  - revert c t Hrun Hi Hst. induction evs as [|ev evs IH]; intros c t; cbn [loop_run].
    + intros [= <-] Hi Hst. exists t. split; assumption.
    + destruct (loop_step loads c ev) as [c1|] eqn:Hstep; [|discriminate].
      intros Hrun Hi Hst.
      destruct (finished_step loads c c1 ev i t e Hstep Hi Hst) as (t1 & Hi1 & Hst1).
      exact (IH c1 t1 Hrun Hi1 Hst1).
Qed.

(** X13 at three tasks, the first of which has died: the others go on
    connecting and streaming, the first stays as it is. *)
Lemma finished_supervisor_stays_finished_witness :
  exists c',
    loop_run Json.loads one_dead [Wakeup 1 Resolved; Wakeup 1 (Message "{}")] = Some c'
    /\ length (tasks c') = length (tasks one_dead)
    /\ exists t',
         tasks c' !! 0 = Some t'
         /\ task_state t'
            = Finished (mkExn AttributeError "object has no attribute 'get'").
Proof.
  eexists. split; [vm_compute; reflexivity|].
  apply (finished_supervisor_stays_finished Json.loads
           [Wakeup 1 Resolved; Wakeup 1 (Message "{}")] one_dead _ 0
           (mkTask (mkSupervisorArgs 0 "http://127.0.0.1:8200" "kv-v2/*"
                      {["X-Vault-Token" := "t"]} 20 true 1 30 None)
              (Finished (mkExn AttributeError "object has no attribute 'get'")) false)
           (mkExn AttributeError "object has no attribute 'get'")).
  - vm_compute. reflexivity.
  - reflexivity.
  - reflexivity.
Defined.

(** ** Entry point *)

(** X14: with an empty list of patterns [main] does nothing at all.
    With address and token there and no null among the converted
    options it passes validation, creates no task, and the coordinator
    returns at once, since a [gather] of nothing is already resolved: no
    connection is ever attempted and no event of the loop applies any
    more. *)
Theorem empty_event_paths_returns (loads : string -> Outcome PyVal)
    (queue : QueueRef) (args : Args) :
  ~ missing (arg_vault_addr args) ->
  ~ missing (arg_vault_token args) ->
  arg_event_paths args = Value (PathList []) ->
  arg_ping_interval args <> Null ->
  arg_backoff_initial args <> Null ->
  arg_backoff_max args <> Null ->
  exists c,
    main queue args = Ok c
    /\ tasks c = []
    /\ coord c = CoordReturned
    /\ trace c = []
    /\ forall ev, loop_step loads c ev = None.
Proof.
  unfold missing. intros Ha Ht Hp Hz Hbi Hbm.
  destruct (arg_vault_addr args) as [[|a s]|] eqn:Eaddr;
    try (exfalso; apply Ha; reflexivity).
  destruct (arg_vault_token args) as [[|b t]|] eqn:Etok;
    try (exfalso; apply Ht; reflexivity).
  eexists. split.
  - apply (main_delegates queue args (String a s) (String b t)); try assumption;
      try discriminate. rewrite Hp. discriminate.
  - rewrite Hp. cbn. repeat split. intros [i w|]; reflexivity.
Qed.

(** X14 at a configuration with [event_paths: []]. *)
Lemma empty_event_paths_returns_witness :
  exists c,
    main 0 no_paths_args = Ok c
    /\ tasks c = []
    /\ coord c = CoordReturned
    /\ trace c = []
    /\ forall ev, loop_step Json.loads c ev = None.
Proof.
  apply (empty_event_paths_returns Json.loads 0 no_paths_args);
    try (unfold missing; simpl; discriminate); try reflexivity; simpl; discriminate.
Defined.

(** X15: which supervisors [main] starts.  A configuration with address
    and token and no null among the converted options gets one
    supervisor for the pattern [kv-v2/data-*] when the key [event_paths]
    is absent, one supervisor for the whole string when it holds a
    single string (the string is not taken apart), and one per element,
    in order, when it holds a list. *)
Theorem main_patterns (queue : QueueRef) (args : Args) :
  ~ missing (arg_vault_addr args) ->
  ~ missing (arg_vault_token args) ->
  arg_event_paths args <> Null ->
  arg_ping_interval args <> Null ->
  arg_backoff_initial args <> Null ->
  arg_backoff_max args <> Null ->
  exists c,
    main queue args = Ok c
    /\ (arg_event_paths args = Absent ->
        map (fun t => sa_event_pattern (task_args t)) (tasks c) = ["kv-v2/data-*"])
    /\ (forall s, arg_event_paths args = Value (PathStr s) ->
        map (fun t => sa_event_pattern (task_args t)) (tasks c) = [s])
    /\ (forall l, arg_event_paths args = Value (PathList l) ->
        map (fun t => sa_event_pattern (task_args t)) (tasks c) = l).
Proof.
  unfold missing. intros Ha Ht Hp Hz Hbi Hbm.
  destruct (arg_vault_addr args) as [[|a s]|] eqn:Eaddr;
    try (exfalso; apply Ha; reflexivity).
  destruct (arg_vault_token args) as [[|b t]|] eqn:Etok;
    try (exfalso; apply Ht; reflexivity).
  eexists. split.
  - apply (main_delegates queue args (String a s) (String b t)); try assumption;
      discriminate.
  - unfold _stream_multiple_patterns. cbn [tasks].
    rewrite spawn_map, map_map. cbn [task_args create_task sa_event_pattern].
    rewrite map_id.
    split; [|split]; intros; match goal with H : arg_event_paths args = _ |- _ =>
      rewrite H end; reflexivity.
Qed.

(** X15 at a configuration whose [event_paths] is one string. *)
Lemma main_patterns_witness :
  exists c,
    main 0 one_string_args = Ok c
    /\ (arg_event_paths one_string_args = Absent ->
        map (fun t => sa_event_pattern (task_args t)) (tasks c) = ["kv-v2/data-*"])
    /\ (forall s, arg_event_paths one_string_args = Value (PathStr s) ->
        map (fun t => sa_event_pattern (task_args t)) (tasks c) = [s])
    /\ (forall l, arg_event_paths one_string_args = Value (PathList l) ->
        map (fun t => sa_event_pattern (task_args t)) (tasks c) = l).
Proof.
  apply (main_patterns 0 one_string_args);
    try (unfold missing; simpl; discriminate); simpl; discriminate.
Defined.

(** X16: end to end.  For every configuration that [main] accepts and
    every run of the event loop on the cohort it builds, each connection
    request carries an [X-Vault-Token] header and goes to the URL built
    from the configured address, the pattern of its own position in the
    list and the configured filter; and each event is put on the queue
    that [main] was given. *)
Theorem every_connection_is_authenticated (loads : string -> Outcome PyVal)
    (queue : QueueRef) (args : Args) (c c' : Cohort) (evs : list LoopEvent) :
  main queue args = Ok c ->
  loop_run loads c evs = Some c' ->
  Forall
    (fun entry =>
       match snd entry with
       | Connect url headers _ _ =>
           is_Some (headers !! "X-Vault-Token")
           /\ exists pattern,
                normalize_paths
                  (setting_or (PathList ["kv-v2/data-*"]) (arg_event_paths args))
                  !! fst entry = Some pattern
                /\ url = _build_event_url (default EmptyString (arg_vault_addr args))
                           pattern (arg_filter_expression args)
       | QueuePut q _ => q = queue
       | Sleep _ => True
       end)
    (trace c').
Proof.
  intros Hmain Hrun.
  destruct (main_ok queue args c Hmain)
    as (vault_addr & tok & Haddr & _ & Htok & _ & _ & _ & _ & _ & ->).
  rewrite Haddr. cbn [default].
  pose proof (entries_run loads evs _ c' Hrun (List.Forall_nil _)) as Hinv.
  unfold _stream_multiple_patterns in Hinv. cbn [tasks] in Hinv.
  rewrite spawn_map, map_map in Hinv. cbn [task_args create_task] in Hinv.
  revert Hinv. apply List.Forall_impl. intros [i eff] (x & Hlook & Heff).
  cbn [fst snd] in *.
  apply lookup_map_inv in Hlook as (pattern & Hpat & ->).
  destruct eff as [url h ping ssl | q ev | d]; cbn [effect_of] in Heff.
  - injection Heff as -> -> _ _. split.
    + cbn [sa_headers].
      destruct (default ∅ (arg_headers args) !! "X-Vault-Token") as [v|] eqn:Hc.
      * exists v. apply assemble_headers_custom. exact Hc.
      * exists tok. rewrite assemble_headers_default by exact Hc. reflexivity.
    + exists pattern. split; [exact Hpat | reflexivity].
  - exact Heff.
  - exact I.
Qed.

(** X16 at the documented configuration, run until its supervisor has
    connected, received an event, lost the connection and reconnected. *)
Lemma every_connection_is_authenticated_witness :
  exists c',
    loop_run Json.loads namespaced_cohort
      [Wakeup 0 Resolved; Wakeup 0 Resolved; Wakeup 0 (Message "{}");
       Wakeup 0 (Thrown (mkExn ConnectionClosed "1006")); Wakeup 0 Resolved] = Some c'
    /\ Forall
         (fun entry =>
            match snd entry with
            | Connect url headers _ _ =>
                is_Some (headers !! "X-Vault-Token")
                /\ exists pattern,
                     normalize_paths
                       (setting_or (PathList ["kv-v2/data-*"])
                          (arg_event_paths namespaced_args))
                       !! fst entry = Some pattern
                     /\ url = _build_event_url
                                (default EmptyString (arg_vault_addr namespaced_args))
                                pattern (arg_filter_expression namespaced_args)
            | QueuePut q _ => q = 0
            | Sleep _ => True
            end)
         (trace c').
Proof.
  eexists. split; [vm_compute; reflexivity|].
  apply (every_connection_is_authenticated Json.loads 0 namespaced_args
           namespaced_cohort _
           [Wakeup 0 Resolved; Wakeup 0 Resolved; Wakeup 0 (Message "{}");
            Wakeup 0 (Thrown (mkExn ConnectionClosed "1006")); Wakeup 0 Resolved]).
  - reflexivity.
  - vm_compute. reflexivity.
Defined.

Lemma ssl_ctx_https (a : SupervisorArgs) :
  PyStr.startswith (sa_vault_addr a) "https://" = true ->
  ssl_ctx a = if sa_verify_ssl a then SslDefault else SslUnverified.
Proof.
  intros H. unfold ssl_ctx, supervisor_url.
  destruct (build_event_url_from_scheme (sa_vault_addr a) (sa_event_pattern a)
              (sa_filter_expression a)) as [rest ->].
  pose proof (ws_scheme_https _ H) as Hw. unfold PyStr.startswith in *.
  rewrite (prefix_app_l _ _ rest Hw). destruct (sa_verify_ssl a); reflexivity.
Qed.

(** X17: when certificates are verified.  For an [https://] address,
    every connection request of every supervisor, in every run, uses the
    default verifying TLS context when the key [verify_ssl] is absent or
    true, and the unverified one when it is false or holds a null. *)
Theorem tls_verification_by_default (loads : string -> Outcome PyVal)
    (queue : QueueRef) (args : Args) (c c' : Cohort) (evs : list LoopEvent)
    (vault_addr : string) :
  arg_vault_addr args = Some vault_addr ->
  PyStr.startswith vault_addr "https://" = true ->
  main queue args = Ok c ->
  loop_run loads c evs = Some c' ->
  Forall
    (fun entry =>
       match snd entry with
       | Connect _ _ _ ssl =>
           ssl = match arg_verify_ssl args with
                 | Absent | Value true => SslDefault
                 | Null | Value false => SslUnverified
                 end
       | _ => True
       end)
    (trace c').
Proof.
  intros Haddr Hs Hmain Hrun.
  destruct (main_ok queue args c Hmain)
    as (addr & tok & Haddr' & _ & Htok & _ & _ & _ & _ & _ & ->).
  rewrite Haddr in Haddr'. injection Haddr' as <-.
  pose proof (entries_run loads evs _ c' Hrun (List.Forall_nil _)) as Hinv.
  unfold _stream_multiple_patterns in Hinv. cbn [tasks] in Hinv.
  rewrite spawn_map, map_map in Hinv. cbn [task_args create_task] in Hinv.
  revert Hinv. apply List.Forall_impl. intros [i eff] (x & Hlook & Heff).
  cbn [fst snd] in *.
  apply lookup_map_inv in Hlook as (pattern & Hpat & ->).
  destruct eff as [url h ping ssl | q ev | d]; cbn [effect_of] in Heff;
    try exact I.
  injection Heff as _ _ _ ->.
  rewrite ssl_ctx_https by exact Hs. cbn [sa_verify_ssl].
  destruct (arg_verify_ssl args) as [| |[|]]; reflexivity.
Qed.

(** X17 at the development configuration of the documentation, which
    switches verification off. *)
Lemma tls_verification_by_default_witness :
  exists c',
    loop_run Json.loads dev_cohort
      [Wakeup 0 Resolved; Wakeup 0 (Thrown (mkExn SSLError "handshake")); Wakeup 0 Resolved]
    = Some c'
    /\ Forall
         (fun entry =>
            match snd entry with
            | Connect _ _ _ ssl =>
                ssl = match arg_verify_ssl dev_args with
                      | Absent | Value true => SslDefault
                      | Null | Value false => SslUnverified
                      end
            | _ => True
            end)
         (trace c').
Proof.
  eexists. split; [vm_compute; reflexivity|].
  apply (tls_verification_by_default Json.loads 0 dev_args dev_cohort _
           [Wakeup 0 Resolved; Wakeup 0 (Thrown (mkExn SSLError "handshake"));
            Wakeup 0 Resolved]
           "https://localhost:8200").
  - reflexivity.
  - vm_compute. reflexivity.
  - reflexivity.
  - vm_compute. reflexivity.
Defined.
